(** * MKS 937B vacuum gauge controller: protocol client

    A shallow embedding of the [protocol] package of the Go library
    (protocol.go, errors.go, readings.go, control.go) and the properties of
    its frame codec, command gateway, reading decoder and validation
    helpers.

    Conventions of the embedding:
    - a Go [string] is a [String.string], a sequence of 8-bit bytes;
    - a Go [int] is a [Z] (no arithmetic is done on the integers involved, so
      no wrap-around arises);
    - a Go [float64] is a primitive binary64 [float], with the IEEE
      comparisons and multiplication of [PrimFloat];
    - a method of [*MKS937B] is a function from the device handle to a result
      and the handle afterwards;
    - the mutex has no effect on a single caller and is left out. *)

From Stdlib Require Import ZArith List String Ascii Bool Lia Permutation.
From Stdlib Require Import Floats DecimalString.
Import ListNotations.

Set Warnings "-inexact-float".

Local Open Scope list_scope.
Local Open Scope string_scope.

(** ** The parts of the Go standard library the package calls *)

Module strings.

(** [strings.HasPrefix(s, prefix)]. *)
Fixpoint HasPrefix (s prefix : string) {struct prefix} : bool :=
  match prefix, s with
  | EmptyString, _ => true
  | String p prefix', String c s' => Ascii.eqb c p && HasPrefix s' prefix'
  | String _ _, EmptyString => false
  end.

(** [strings.Contains(s, substr)]: [substr] occurs somewhere in [s]. *)
Fixpoint Contains (s substr : string) : bool :=
  HasPrefix s substr ||
  match s with
  | EmptyString => false
  | String _ s' => Contains s' substr
  end.

(** [strings.Split(s, sep)] for a separator of one byte: the fields between
    the occurrences of [sep], of which there is always at least one. *)
Fixpoint Split (s : string) (sep : ascii) : list string :=
  match s with
  | EmptyString => [EmptyString]
  | String c s' =>
      if Ascii.eqb c sep then EmptyString :: Split s' sep
      else match Split s' sep with
           | field :: fields => String c field :: fields
           | [] => [String c EmptyString]
           end
  end.

(** The first [n] bytes of [s] removed ([s[n:]], for [n] within bounds). *)
Fixpoint drop (n : nat) (s : string) : string :=
  match n, s with
  | O, _ => s
  | S n', String _ s' => drop n' s'
  | S _, EmptyString => EmptyString
  end.

End strings.

Module fmt.

(** The verb [%d] on an [int]. *)
Definition d (z : Z) : string := NilZero.string_of_int (Z.to_int z).

Fixpoint zeros (n : nat) : string :=
  match n with
  | O => EmptyString
  | S n' => String "0" (zeros n')
  end.

(** The verb [%03d] on an [int]: the digits are padded with zeros to the
    width 3, which counts the sign of a negative number. *)
Definition d03 (z : Z) : string :=
  let digits := d (Z.abs z) in
  if (z <? 0)%Z
  then "-" ++ zeros (2 - String.length digits) ++ digits
  else zeros (3 - String.length digits) ++ digits.

End fmt.

Module strconv.

Inductive ErrKind := ErrSyntax | ErrRange.

(** [*strconv.NumError], the error of a failed conversion. *)
Record NumError := { Func : string; Num : string; Err : ErrKind }.

End strconv.

(** [strconv.ParseFloat(s, 64)] and the verb [%.2E] of [fmt] convert between
    decimal text and binary64 with correct rounding.  They belong to the Go
    runtime, not to the package, and are taken as an interface. *)
Class GoFloatText := {
  ParseFloat : string -> float * option strconv.NumError;
  Sprintf_2E : float -> string
}.

(** ** The response pattern [@([0-9]+)(?:ACK|NAK)(.*?);FF] *)

Module regexp.

Definition isDigit (c : ascii) : bool :=
  (48 <=? nat_of_ascii c)%nat && (nat_of_ascii c <=? 57)%nat.

Definition newline : ascii := ascii_of_nat 10.

(** [[0-9]+] is greedy: the longest run of digits, and what follows it.  No
    shorter run can be followed by the tag, which starts with a letter. *)
Fixpoint digitRun (s : string) : string * string :=
  match s with
  | EmptyString => (EmptyString, EmptyString)
  | String c s' =>
      if isDigit c
      then let (run, rest) := digitRun s' in (String c run, rest)
      else (EmptyString, s)
  end.

(** [(?:ACK|NAK)]: the tag found and the text after it. *)
Definition tag (s : string) : option (string * string) :=
  if strings.HasPrefix s "ACK" then Some ("ACK", strings.drop 3 s)
  else if strings.HasPrefix s "NAK" then Some ("NAK", strings.drop 3 s)
  else None.

(** [(.*?);FF]: the group is lazy, so it is the shortest run of bytes other
    than a line feed that is followed by [;FF]. *)
Fixpoint lazyGroup (s : string) : option string :=
  if strings.HasPrefix s ";FF" then Some EmptyString
  else match s with
       | EmptyString => None
       | String c s' =>
           if Ascii.eqb c newline then None
           else option_map (String c) (lazyGroup s')
       end.

(** A match of the pattern that starts at the first byte of [s]: the whole
    match and the two groups. *)
Definition matchHere (s : string) : option (list string) :=
  match s with
  | String "@" s1 =>
      let (address, s2) := digitRun s1 in
      match address with
      | EmptyString => None
      | String _ _ =>
          match tag s2 with
          | None => None
          | Some (ack, s3) =>
              match lazyGroup s3 with
              | None => None
              | Some parameter =>
                  Some [ "@" ++ address ++ ack ++ parameter ++ ";FF";
                         address; parameter ]
              end
          end
      end
  | _ => None
  end.

(** [regex.FindStringSubmatch(s)]: the leftmost match, or [nil]. *)
Fixpoint FindStringSubmatch (s : string) : list string :=
  match matchHere s with
  | Some matches => matches
  | None =>
      match s with
      | EmptyString => []
      | String _ s' => FindStringSubmatch s'
      end
  end.

End regexp.

(** ** The transport *)

Module unicomm.

(** Modelled from the spec: the transport collaborator [unicomm.Unicomm] is
    an external package; the spec gives its contract ([isConnected],
    [write(bytes)], [readUntil(delimiter) -> bytes, error]).  The model is a
    scripted line: it records what is written and answers each read with the
    next entry of a script, a body or an error, and with a timeout once the
    script is exhausted. *)
Record Unicomm := {
  connected : bool;
  written : list string;
  incoming : list (string + string)
}.

Definition IsConnected (c : Unicomm) : bool := connected c.

Definition Write (message : string) (c : Unicomm) : Unicomm :=
  {| connected := connected c;
     written := (written c ++ [message])%list;
     incoming := incoming c |}.

Definition ReadUntil (delimiter : string) (c : Unicomm) : (string + string) * Unicomm :=
  match incoming c with
  | [] => (inr "timeout", c)
  | answer :: rest =>
      (answer, {| connected := connected c; written := written c; incoming := rest |})
  end.

End unicomm.

(** ** errors.go *)

Inductive error :=
| ErrNotConnected
| ErrInvalidParameter
| Errorf (message : string)
| ErrInvalidAddress (Got : Z)
| ErrUnexpectedReply (Sent Got : string)
| ErrUnexpectedAddress (Expected Got : string)
| ErrUnexpectedParameter (Expected Got : string)
| ErrInvalidChannel (MinChannel MaxChannel Channel : Z)
| ErrInvalidChannelControl (Channel : Z)
| ErrInvalidPRO (Got : float)
| ErrInvalidRangeExp (MinValue MaxValue Got : float)
| ErrTransport (reason : string)
| ErrNum (e : strconv.NumError).

(** The outcome of a call: a value, an error, or a run-time panic on an index
    out of range. *)
Inductive result (A : Type) :=
| Ok (a : A)
| Err (e : error)
| Panic (index length : nat).

Arguments Ok {A} a.
Arguments Err {A} e.
Arguments Panic {A} index length.

(** ** protocol.go *)

Record MKS937B := {
  Communication : unicomm.Unicomm;
  Address : Z
}.

(** A method of the device handle. *)
Definition M (A : Type) : Type := MKS937B -> result A * MKS937B.

Definition ret {A} (a : A) : M A := fun m => (Ok a, m).

Definition fail {A} (e : error) : M A := fun m => (Err e, m).

Definition bind {A B} (c : M A) (k : A -> M B) : M B :=
  fun m =>
    match c m with
    | (Ok a, m') => k a m'
    | (Err e, m') => (Err e, m')
    | (Panic i n, m') => (Panic i n, m')
    end.

Notation "x <- c ;; k" := (bind c (fun x => k))
  (at level 61, c at next level, right associativity).
Notation "c ;;; k" := (bind c (fun _ => k))
  (at level 61, right associativity).

Definition IsConnected : M bool :=
  fun m => (Ok (unicomm.IsConnected (Communication m)), m).

Definition CommunicationWrite (message : string) : M unit :=
  fun m => (Ok tt, {| Communication := unicomm.Write message (Communication m);
                      Address := Address m |}).

Definition CommunicationReadUntil (delimiter : string) : M string :=
  fun m =>
    let (answer, c) := unicomm.ReadUntil delimiter (Communication m) in
    let m' := {| Communication := c; Address := Address m |} in
    match answer with
    | inl response => (Ok response, m')
    | inr reason => (Err (ErrTransport reason), m')
    end.

Definition getAddress : M Z := fun m => (Ok (Address m), m).

(** Queries a value from the device. *)
Definition Query (command : string) : M string :=
  isConnected <- IsConnected ;;
  if negb isConnected then fail ErrNotConnected else
  address <- getAddress ;;
  let addressStr := fmt.d03 address in
  let message := "@" ++ addressStr ++ command ++ "?;FF" in
  CommunicationWrite message ;;;
  responseStr <- CommunicationReadUntil ";FF" ;;
  let matches := regexp.FindStringSubmatch responseStr in
  if (List.length matches <? 3)%nat then
    fail (ErrUnexpectedReply message responseStr)
  else if negb (String.eqb (nth 1 matches "") addressStr) then
    fail (ErrUnexpectedAddress addressStr (nth 1 matches ""))
  else ret (nth 2 matches "").

(** Sets a value to the device ([Set] in the source, a reserved word here). *)
Definition Set_ (command : string) (parameter : string) : M unit :=
  isConnected <- IsConnected ;;
  if negb isConnected then fail (Errorf "no MKS937B is connected") else
  address <- getAddress ;;
  let addressStr := fmt.d03 address in
  let message := "@" ++ addressStr ++ command ++ "!" ++ parameter ++ ";FF" in
  CommunicationWrite message ;;;
  responseStr <- CommunicationReadUntil ";FF" ;;
  let matches := regexp.FindStringSubmatch responseStr in
  if (List.length matches <? 3)%nat then
    fail (ErrUnexpectedReply message responseStr)
  else if negb (String.eqb (nth 1 matches "") addressStr) then
    fail (ErrUnexpectedAddress addressStr (nth 1 matches ""))
  else if negb (String.eqb (nth 2 matches "") parameter) then
    fail (ErrUnexpectedParameter parameter (nth 2 matches ""))
  else ret tt.

(** ** readings.go *)

Record PressureReading := {
  value : float;
  status : string
}.

(** The zero value of [PressureReading], as [var pressure PressureReading]
    and [make] give it. *)
Definition zeroReading : PressureReading := {| value := 0%float; status := "" |}.

(** The entries of the map [stringResponse].  A Go map has no order: each
    [range] over it visits the entries once each, in an order the runtime
    chooses.  The list fixes the entries; the order of a [range] is an
    argument of the function that runs it. *)
Definition stringResponse : list (string * string) :=
  [ ("LO<", "Pressure lower than minimum");
    ("ATM", "PR when pressure is lower than 450 Torr");
    ("OFF", "Cold cathode HV if OFF, or HC/PR/CP power if OFF");
    ("WAIT", "CC or HC startup delay");
    ("LowEmis", "HC OFF due to lowe emission");
    ("CTRL_OFF", "CC or HC if OFF in controlled state");
    ("PROT_OFF", "CC or HC if OFF in protected state");
    ("MISCONN", "Sensor improperly connected, or broken filament (PR, CP only)");
    ("NOGAUGE", "Controller unable to determine sensor connection");
    ("NO_GAUGE", "Controller unable to determine sensor connection");
    ("COMB_DISABLED", "Combination disabled") ].

(** An order in which a [range] may visit the map. *)
Definition rangeOrder (order : list (string * string)) : Prop :=
  Permutation order stringResponse.

(** The loop [for key, value := range stringResponse] of [parsePressure]:
    the description of the first visited key that [reading] contains. *)
Fixpoint firstContained (order : list (string * string)) (reading : string)
  : option string :=
  match order with
  | [] => None
  | (key, description) :: order' =>
      if strings.Contains reading key then Some description
      else firstContained order' reading
  end.

Section Readings.

Context {goFloatText : GoFloatText}.

(** Parses a pressure reading from device. *)
Definition parsePressure (order : list (string * string)) (reading : string)
  : result PressureReading :=
  match firstContained order reading with
  | Some description => Ok {| value := 0%float; status := description |}
  | None =>
      match ParseFloat reading with
      | (_, Some err) => Err (ErrNum err)
      | (parsed, None) => Ok {| value := parsed; status := "OK" |}
      end
  end.

Definition lift {A} (r : result A) : M A := fun m => (r, m).

(** Reads the pressure of a target channel. *)
Definition GetPressure (order : list (string * string)) (channel : Z)
  : M PressureReading :=
  if (1 <? channel)%Z || (channel >? 6)%Z then
    fail (ErrInvalidChannel 1 6 channel)
  else
    response <- Query ("PR" ++ fmt.d channel) ;;
    lift (parsePressure order response).

(** [pressures[idx] = pressure]: [None] when [idx] is out of range. *)
Fixpoint setIndex {A} (l : list A) (idx : nat) (x : A) : option (list A) :=
  match l, idx with
  | [], _ => None
  | _ :: l', O => Some (x :: l')
  | y :: l', S idx' => option_map (cons y) (setIndex l' idx' x)
  end.

(** The loop of [GetPressures] over the fields from index [idx] on; [orders]
    gives the order of the [range] that decodes each field. *)
Fixpoint fillPressures (orders : nat -> list (string * string)) (idx : nat)
    (fields : list string) (pressures : list PressureReading)
  : result (list PressureReading) :=
  match fields with
  | [] => Ok pressures
  | field :: fields' =>
      match parsePressure (orders idx) field with
      | Err e => Err e
      | Panic i n => Panic i n
      | Ok pressure =>
          match setIndex pressures idx pressure with
          | None => Panic idx (List.length pressures)
          | Some pressures' => fillPressures orders (S idx) fields' pressures'
          end
      end
  end.

(** Reads the pressures from all device channels. *)
Definition GetPressures (orders : nat -> list (string * string))
  : M (list PressureReading) :=
  response <- Query "PRZ" ;;
  lift (fillPressures orders 0 (strings.Split response " ") (repeat zeroReading 6)).

(** Reads pressure on target channel (1 or 2) and its combination sensor. *)
Definition GetPressureCombination (order : list (string * string)) (channel : Z)
  : M PressureReading :=
  if (channel <? 1)%Z || (2 <? channel)%Z then
    fail (ErrInvalidChannel 1 2 channel)
  else
    response <- Query ("PC" ++ fmt.d channel) ;;
    lift (parsePressure order response).

(** ** control.go *)

(** [slices.Contains] on a slice of [int]. *)
Definition slices_Contains (s : list Z) (v : Z) : bool :=
  existsb (Z.eqb v) s.

(** [strconv.ParseFloat(response, 64)] as the last call of a getter. *)
Definition parseFloatResult (response : string) : result float :=
  match ParseFloat response with
  | (_, Some err) => Err (ErrNum err)
  | (parsed, None) => Ok parsed
  end.

(** Sets a protection set point value for sensor on a target channel that
    must be 1, 3 or 5. *)
Definition SetProtectionTarget (channel : Z) (target : float) : M unit :=
  let valid := [1; 3; 5]%Z in
  if negb (slices_Contains valid channel) then
    fail (ErrInvalidChannelControl channel)
  else if negb (target =? 0)%float && (target <? 1e-5)%float && (1e-2 <? target)%float then
    fail (ErrInvalidPRO target)
  else
    Set_ ("PRO" ++ fmt.d channel) (Sprintf_2E target).

(** Gets the set point value for a sensor on a target channel. *)
Definition GetTarget (channel : Z) : M float :=
  let valid := [1; 3; 5]%Z in
  if negb (slices_Contains valid channel) then
    fail (ErrInvalidChannelControl channel)
  else
    response <- Query ("CSP" ++ fmt.d channel) ;;
    lift (parseFloatResult response).

(** Sets a target hysterises value for a target channel. *)
Definition SetHysterisesTarget (channel : Z) (target : float) : M unit :=
  let valid := [1; 3; 5]%Z in
  if negb (slices_Contains valid channel) then
    fail (ErrInvalidChannelControl channel)
  else
    CSP <- GetTarget channel ;;
    if (target <? 1.2 * CSP)%float || (0.03 <? target)%float then
      fail (ErrInvalidRangeExp (1.2 * CSP)%float 0.03%float target)
    else
      Set_ ("CHP" ++ fmt.d channel) (Sprintf_2E target).

End Readings.

(** ** The frame grammar, as a specification of the pattern *)

Fixpoint allBytes (p : ascii -> bool) (s : string) : bool :=
  match s with
  | EmptyString => true
  | String c s' => p c && allBytes p s'
  end.

Definition notNewline (c : ascii) : bool := negb (Ascii.eqb c regexp.newline).

(** The text of a response frame. *)
Definition frameText (address ack parameter : string) : string :=
  "@" ++ address ++ ack ++ parameter ++ ";FF".

(** What the pattern matches: a non-empty run of digits, one of the two
    tags, and a parameter in which [.] finds no line feed. *)
Definition Frame (address ack parameter : string) : Prop :=
  address <> "" /\ allBytes regexp.isDigit address = true /\
  (ack = "ACK" \/ ack = "NAK") /\
  allBytes notNewline parameter = true.

(** The pattern is searched for, not anchored: a body matches when a frame
    occurs somewhere in it. *)
Definition ContainsFrame (body : string) : Prop :=
  exists before address ack parameter after,
    Frame address ack parameter /\
    body = before ++ frameText address ack parameter ++ after.

(** The spec's reading of the pattern, anchored against the full response
    body: the body is a frame and nothing else, whatever the parameter. *)
Definition WholeFrame (body : string) : Prop :=
  exists address ack parameter,
    address <> "" /\ allBytes regexp.isDigit address = true /\
    (ack = "ACK" \/ ack = "NAK") /\
    body = frameText address ack parameter.

(** What follows a greedy run of digits does not start with a digit. *)
Definition startsWithoutDigit (s : string) : Prop :=
  match s with
  | EmptyString => True
  | String c _ => regexp.isDigit c = false
  end.

(** ** The exchange on the line *)

(** The frames [Query] and [Set] write. *)
Definition queryFrame (address : Z) (command : string) : string :=
  "@" ++ fmt.d03 address ++ command ++ "?;FF".

Definition setFrame (address : Z) (command parameter : string) : string :=
  "@" ++ fmt.d03 address ++ command ++ "!" ++ parameter ++ ";FF".

(** The frames written so far on the line of a device. *)
Definition sent (m : MKS937B) : list string :=
  unicomm.written (Communication m).

(** The handle after one exchange: [message] written, one answer read and
    [rest] left to come. *)
Definition exchanged (m : MKS937B) (message : string) (rest : list (string + string))
  : MKS937B :=
  {| Communication :=
       {| unicomm.connected := unicomm.connected (Communication m);
          unicomm.written := (sent m ++ [message])%list;
          unicomm.incoming := rest |};
     Address := Address m |}.

(** What the next read on the line of a device gives, and what is left to
    come after it. *)
Definition nextAnswer (m : MKS937B) : (string + string) * list (string + string) :=
  match unicomm.incoming (Communication m) with
  | [] => (inr "timeout", [])
  | answer :: rest => (answer, rest)
  end.

(** The verdict of [Query] on a response body. *)
Definition queryVerdict (address : Z) (command response : string) : result string :=
  let matches := regexp.FindStringSubmatch response in
  if (List.length matches <? 3)%nat then
    Err (ErrUnexpectedReply (queryFrame address command) response)
  else if negb (String.eqb (nth 1 matches "") (fmt.d03 address)) then
    Err (ErrUnexpectedAddress (fmt.d03 address) (nth 1 matches ""))
  else Ok (nth 2 matches "").

(** The verdict of [Set] on a response body. *)
Definition setVerdict (address : Z) (command parameter response : string) : result unit :=
  let matches := regexp.FindStringSubmatch response in
  if (List.length matches <? 3)%nat then
    Err (ErrUnexpectedReply (setFrame address command parameter) response)
  else if negb (String.eqb (nth 1 matches "") (fmt.d03 address)) then
    Err (ErrUnexpectedAddress (fmt.d03 address) (nth 1 matches ""))
  else if negb (String.eqb (nth 2 matches "") parameter) then
    Err (ErrUnexpectedParameter parameter (nth 2 matches ""))
  else Ok tt.

(** The kinds of failure the claims speak of. *)
Definition isUnexpectedReply {A} (r : result A) : Prop :=
  exists sentText got, r = Err (ErrUnexpectedReply sentText got).

Definition isUnexpectedAddress {A} (r : result A) : Prop :=
  exists expected got, r = Err (ErrUnexpectedAddress expected got).

Definition isUnexpectedParameter {A} (r : result A) : Prop :=
  exists expected got, r = Err (ErrUnexpectedParameter expected got).

Definition isInvalidChannel {A} (r : result A) : Prop :=
  exists lo hi channel, r = Err (ErrInvalidChannel lo hi channel).

Definition isInvalidPRO {A} (r : result A) : Prop :=
  exists got, r = Err (ErrInvalidPRO got).

(** The errors the gateway can return. *)
Definition gatewayError (e : error) : Prop :=
  match e with
  | ErrNotConnected | Errorf _ | ErrTransport _
  | ErrUnexpectedReply _ _ | ErrUnexpectedAddress _ _
  | ErrUnexpectedParameter _ _ => True
  | _ => False
  end.

(** The last byte of a text, if it has one. *)
Fixpoint lastByte (s : string) : option ascii :=
  match s with
  | EmptyString => None
  | String c EmptyString => Some c
  | String _ s' => lastByte s'
  end.

(** ** The all-channel read, as the spec words it *)

Section DecodeFields.

Context {goFloatText : GoFloatText}.

(** Each field decoded on its own, in field order, the first failure
    aborting the whole. *)
Fixpoint decodeFields (orders : nat -> list (string * string)) (idx : nat)
    (fields : list string) : result (list PressureReading) :=
  match fields with
  | [] => Ok []
  | field :: fields' =>
      match parsePressure (orders idx) field with
      | Err e => Err e
      | Panic i n => Panic i n
      | Ok pressure =>
          match decodeFields orders (S idx) fields' with
          | Ok pressures => Ok (pressure :: pressures)
          | Err e => Err e
          | Panic i n => Panic i n
          end
      end
  end.

End DecodeFields.

(** ** Devices and conversions for the examples *)

Definition syntaxError (s : string) : strconv.NumError :=
  {| strconv.Func := "ParseFloat"; strconv.Num := s; strconv.Err := strconv.ErrSyntax |}.

(** A fragment of the Go conversions: for the texts and numbers listed, what
    [strconv.ParseFloat] and [%.2E] give.  A text outside the list is
    reported as a syntax error, as Go reports the empty text and ["xyz"];
    the examples print no number outside the list. *)
Definition tableFloatText : GoFloatText :=
  {| ParseFloat := fun s =>
       if String.eqb s "1.00E-03" then (1e-3%float, None)
       else if String.eqb s "4.50E-03" then (4.5e-3%float, None)
       else if String.eqb s "1.0E-03" then (1e-3%float, None)
       else if String.eqb s "2.0E-03" then (2e-3%float, None)
       else if String.eqb s "1.0E-04" then (1e-4%float, None)
       else if String.eqb s "3.0E-03" then (3e-3%float, None)
       else (0%float, Some (syntaxError s));
     Sprintf_2E := fun x =>
       if (x =? 1.4e-3)%float then "1.40E-03"
       else if (x =? 1e-3)%float then "1.00E-03"
       else if (x =? 1)%float then "1.00E+00"
       else if (x =? 1e-7)%float then "1.00E-07"
       else "0.00E+00" |}.

(** A device at address [address] whose line will answer with [answers]. *)
Definition device (address : Z) (isConnected : bool) (answers : list string) : MKS937B :=
  {| Communication :=
       {| unicomm.connected := isConnected;
          unicomm.written := [];
          unicomm.incoming := map inl answers |};
     Address := address |}.

(** The order in which the table is written, and one that visits
    ["CTRL_OFF"] before every other key. *)
Definition writtenOrder : list (string * string) := stringResponse.

Definition specificFirst : list (string * string) :=
  ("CTRL_OFF", "CC or HC if OFF in controlled state") ::
  [ ("LO<", "Pressure lower than minimum");
    ("ATM", "PR when pressure is lower than 450 Torr");
    ("OFF", "Cold cathode HV if OFF, or HC/PR/CP power if OFF");
    ("WAIT", "CC or HC startup delay");
    ("LowEmis", "HC OFF due to lowe emission");
    ("PROT_OFF", "CC or HC if OFF in protected state");
    ("MISCONN", "Sensor improperly connected, or broken filament (PR, CP only)");
    ("NOGAUGE", "Controller unable to determine sensor connection");
    ("NO_GAUGE", "Controller unable to determine sensor connection");
    ("COMB_DISABLED", "Combination disabled") ].

(** ** system.go and the rest of control.go *)

(** The verb [%.1f] of [fmt] and the conversion [float64(n)] of an [int]
    belong to the Go runtime as well, and are taken as an interface. *)
Class GoNumbers := {
  Sprintf_1f : float -> string;
  float64 : Z -> float
}.

(** Sets the controller address. *)
Definition SetAddress (address : Z) : M unit :=
  if (address <? 1)%Z || (254 <? address)%Z then
    fail (ErrInvalidAddress address)
  else Set_ "AD" (fmt.d03 address).

Section Control.

Context {goFloatText : GoFloatText} {goNumbers : GoNumbers}.

(** Gets protection set point value for sensor on a target channel that
    must be 1, 3 or 5. *)
Definition GetProtectionTarget (channel : Z) : M float :=
  let valid := [1; 3; 5]%Z in
  if negb (slices_Contains valid channel) then
    fail (ErrInvalidChannelControl channel)
  else
    response <- Query ("PRO" ++ fmt.d channel) ;;
    lift (parseFloatResult response).

(** Sets a target for a sensor on a desired channel. *)
Definition SetTarget (channel : Z) (target : float) : M unit :=
  let valid := [1; 3; 5]%Z in
  if negb (slices_Contains valid channel) then
    fail (ErrInvalidChannelControl channel)
  else if (target <? 5e-4)%float && (1e-2 <? target)%float then
    fail (ErrInvalidRangeExp 5e-4 1e-2 target)
  else
    Set_ ("CSP" ++ fmt.d channel) (Sprintf_2E target).

(** Get upper control set point status. *)
Definition GetUpperControlStatus (channel : Z) : M bool :=
  let valid := [1; 3; 5]%Z in
  if negb (slices_Contains valid channel) then
    fail (ErrInvalidChannelControl channel)
  else
    response <- Query ("XCS" ++ fmt.d channel) ;;
    ret (String.eqb response "ON").

(** Sets the upper control set point. *)
Definition SetUpperControlStatus (channel : Z) (status : bool) : M unit :=
  let valid := [1; 3; 5]%Z in
  if negb (slices_Contains valid channel) then
    fail (ErrInvalidChannelControl channel)
  else if status then Set_ ("XCS" ++ fmt.d channel) "ON"
  else Set_ ("XCS" ++ fmt.d channel) "OFF".

(** Gets control set point hysterises value for a target channel. *)
Definition GetHysterisesTarget (channel : Z) : M float :=
  let valid := [1; 3; 5]%Z in
  if negb (slices_Contains valid channel) then
    fail (ErrInvalidChannelControl channel)
  else
    response <- Query ("CHP" ++ fmt.d channel) ;;
    lift (parseFloatResult response).

(** Gets the control channel for a sensor on a desired channel. *)
Definition GetControlChannelStatus (channel : Z) : M string :=
  let valid := [1; 3; 5]%Z in
  if negb (slices_Contains valid channel) then
    fail (ErrInvalidChannelControl channel)
  else Query ("CSE" ++ fmt.d channel).

(** Gets the control mode for a desired channel. *)
Definition GetControlMode (channel : Z) : M string :=
  let valid := [1; 3; 5]%Z in
  if negb (slices_Contains valid channel) then
    fail (ErrInvalidChannelControl channel)
  else Query ("CTL" ++ fmt.d channel).

(** Gets the emission current. *)
Definition GetEmissionCurrent (channel : Z) : M string :=
  let valid := [1; 3; 5]%Z in
  if negb (slices_Contains valid channel) then
    fail (ErrInvalidChannelControl channel)
  else Query ("EC" ++ fmt.d channel).

(** Gets the gas correction factor for an HC sensor on a desired channel. *)
Definition GetGasCorrection (channel : Z) : M float :=
  let valid := [1; 3; 5]%Z in
  if negb (slices_Contains valid channel) then
    fail (ErrInvalidChannelControl channel)
  else
    response <- Query ("GC" ++ fmt.d channel) ;;
    lift (parseFloatResult response).

(** Sets the gas correction factor for an HC sensor on a desired channel. *)
Definition SetGasCorrection (channel : Z) (factor : float) : M unit :=
  let valid := [1; 3; 5]%Z in
  if negb (slices_Contains valid channel) then
    fail (ErrInvalidChannelControl channel)
  else if (factor <? 0.1)%float || (50.0 <? factor)%float then
    fail (ErrInvalidRangeExp 0.1 50 factor)
  else
    Set_ ("GC" ++ fmt.d channel) (Sprintf_1f factor).

(** Gets the channel power status for PR, CP, HC or high voltage status for
    CC. *)
Definition GetPowerStatus (channel : Z) : M bool :=
  let valid := [1; 3; 5]%Z in
  if negb (slices_Contains valid channel) then
    fail (ErrInvalidChannelControl channel)
  else
    response <- Query ("CP" ++ fmt.d channel) ;;
    ret (String.eqb response "ON").

(** Sets the channel power status for PR, CP, HC or high voltage status for
    CC. *)
Definition SetPowerStatus (channel : Z) (status : bool) : M unit :=
  let valid := [1; 3; 5]%Z in
  if negb (slices_Contains valid channel) then
    fail (ErrInvalidChannelControl channel)
  else if status then Set_ ("CP" ++ fmt.d channel) "ON"
  else Set_ ("CP" ++ fmt.d channel) "OFF".

(** Gets a gas sentivity for an Hot Cathode sensor on the desired channel. *)
Definition GetGasSensitivy (channel : Z) : M float :=
  let valid := [1; 3; 5]%Z in
  if negb (slices_Contains valid channel) then
    fail (ErrInvalidChannelControl channel)
  else
    response <- Query ("SEN" ++ fmt.d channel) ;;
    lift (parseFloatResult response).

(** Sets a gas sensitivity for an Hot Cathode sensor on the desired
    channel. *)
Definition SetGasSentivity (channel : Z) (sensitivity : float) : M unit :=
  let valid := [1; 3; 5]%Z in
  if negb (slices_Contains valid channel) then
    fail (ErrInvalidChannelControl channel)
  else if (sensitivity <? 1.0)%float || (50.0 <? sensitivity)%float then
    fail (ErrInvalidRangeExp 0.1 50 sensitivity)
  else
    Set_ ("SEN" ++ fmt.d channel) (Sprintf_1f sensitivity).

(** Gets Hot Cathode degas status. *)
Definition GetDegasStatus (channel : Z) : M bool :=
  let valid := [1; 3; 5]%Z in
  if negb (slices_Contains valid channel) then
    fail (ErrInvalidChannelControl channel)
  else
    response <- Query ("DG" ++ fmt.d channel) ;;
    ret (String.eqb response "ON").

(** Sets Hot Cathode degas status. *)
Definition SetDegasStatus (channel : Z) (status : bool) : M unit :=
  let valid := [1; 3; 5]%Z in
  if negb (slices_Contains valid channel) then
    fail (ErrInvalidChannelControl channel)
  else if status then Set_ ("DG" ++ fmt.d channel) "ON"
  else Set_ ("DG" ++ fmt.d channel) "OFF".

(** Set Hot Cathode degas time. *)
Definition SetDegasTime (channel : Z) (time : Z) : M unit :=
  let valid := [1; 3; 5]%Z in
  if negb (slices_Contains valid channel) then
    fail (ErrInvalidChannelControl channel)
  else if (time <? 5)%Z && (240 <? time)%Z then
    fail (ErrInvalidRangeExp 5 240 (float64 time))
  else
    Set_ ("DGT" ++ fmt.d channel) (fmt.d time).

End Control.

(** ** Further notions for the properties *)

(** The number of occurrences of a byte in a text. *)
Fixpoint countByte (c : ascii) (s : string) : nat :=
  match s with
  | EmptyString => O
  | String x s' => (if Ascii.eqb x c then 1 else 0) + countByte c s'
  end.

(** The text the on/off commands send for a status. *)
Definition onOff (status : bool) : string := if status then "ON" else "OFF".

Definition isInvalidRangeExp {A} (r : result A) : Prop :=
  exists lo hi got, r = Err (ErrInvalidRangeExp lo hi got).

Definition isInvalidAddress {A} (r : result A) : Prop :=
  exists got, r = Err (ErrInvalidAddress got).

Definition notAt (c : ascii) : bool := negb (Ascii.eqb c "@").

(** The integer a run of decimal digits stands for. *)
Definition readDecimal (s : string) : option Z :=
  option_map Z.of_int (NilZero.int_of_string s).

Definition isInvalidChannelControl {A} (r : result A) : Prop :=
  exists channel, r = Err (ErrInvalidChannelControl channel).

Definition isPanic {A} (r : result A) : Prop :=
  exists index length, r = Panic index length.

(** Conversions for the examples, besides [tableFloatText]. *)
Definition tableNumbers : GoNumbers :=
  {| Sprintf_1f := fun x =>
       if (x =? 1)%float then "1.0"
       else if (x =? 50)%float then "50.0"
       else "NaN";
     float64 := fun n =>
       match n with
       | Z0 => 0%float
       | Zpos p => PrimFloat.of_uint63 (Uint63.of_Z (Zpos p))
       | Zneg p => (- PrimFloat.of_uint63 (Uint63.of_Z (Zpos p)))%float
       end |}.

(** * Properties *)

Ltac case_if :=
  match goal with
  | |- context [if ?b then _ else _] => destruct b eqn:?
  end.

(** ** Strings *)

Lemma append_assoc (a b c : string) : (a ++ b) ++ c = a ++ b ++ c.
Proof.
  induction a as [|x a IH]; simpl; [reflexivity | now rewrite IH].
Qed.

Lemma append_empty_r (s : string) : s ++ "" = s.
Proof.
  induction s as [|x s IH]; simpl; [reflexivity | now rewrite IH].
Qed.

Lemma HasPrefix_iff (s prefix : string) :
  strings.HasPrefix s prefix = true <-> exists rest, s = prefix ++ rest.
Proof.
  revert s; induction prefix as [|p prefix IH]; intros s; simpl.
  - split; [intros _; now exists s | reflexivity].
  - destruct s as [|c s].
    + split; [discriminate | intros [rest H]; discriminate].
    + rewrite andb_true_iff, Ascii.eqb_eq, IH. split.
      * intros [-> [rest ->]]. now exists rest.
      * intros [rest H]. injection H as -> ->. split; [reflexivity | now exists rest].
Qed.

Lemma Contains_iff (s substr : string) :
  strings.Contains s substr = true <->
  exists before after, s = before ++ substr ++ after.
Proof.
  induction s as [|c s IH]; simpl.
  - rewrite orb_false_r, HasPrefix_iff. split.
    + intros [rest H]. now exists "", rest.
    + intros [[|b before] [after H]]; [now exists after | discriminate].
  - rewrite orb_true_iff, HasPrefix_iff, IH. split.
    + intros [[rest H] | [before [after H]]].
      * now exists "", rest.
      * exists (String c before), after. simpl. now rewrite H.
    + intros [[|b before] [after H]].
      * left. now exists after.
      * right. simpl in H. injection H as _ H. now exists before, after.
Qed.

(** ** The pattern against the frame grammar *)

Lemma digitRun_spec (s run rest : string) :
  regexp.digitRun s = (run, rest) ->
  s = run ++ rest /\ allBytes regexp.isDigit run = true /\ startsWithoutDigit rest.
Proof.
  revert run rest; induction s as [|c s IH]; simpl; intros run rest H.
  - injection H as <- <-. repeat split.
  - destruct (regexp.isDigit c) eqn:Hc.
    + destruct (regexp.digitRun s) as [run' rest'].
      injection H as <- <-.
      destruct (IH run' rest' eq_refl) as (-> & Hrun & Hrest).
      simpl. rewrite Hc. repeat split; assumption.
    + injection H as <- <-. simpl. repeat split; assumption.
Qed.

Lemma digitRun_unique (run rest : string) :
  allBytes regexp.isDigit run = true -> startsWithoutDigit rest ->
  regexp.digitRun (run ++ rest) = (run, rest).
Proof.
  induction run as [|c run IH]; simpl; intros Hrun Hrest.
  - destruct rest as [|c rest]; [reflexivity|].
    simpl in *. now rewrite Hrest.
  - apply andb_true_iff in Hrun as [Hc Hrun].
    now rewrite Hc, IH.
Qed.

Lemma tag_spec (s ack rest : string) :
  regexp.tag s = Some (ack, rest) ->
  (ack = "ACK" \/ ack = "NAK") /\ s = ack ++ rest.
Proof.
  unfold regexp.tag. intros H.
  destruct (strings.HasPrefix s "ACK") eqn:Hack.
  - apply HasPrefix_iff in Hack as [r ->]. injection H as <- <-.
    split; [left|]; reflexivity.
  - destruct (strings.HasPrefix s "NAK") eqn:Hnak; [|discriminate].
    apply HasPrefix_iff in Hnak as [r ->]. injection H as <- <-.
    split; [right|]; reflexivity.
Qed.

Lemma tag_complete (ack rest : string) :
  ack = "ACK" \/ ack = "NAK" -> regexp.tag (ack ++ rest) = Some (ack, rest).
Proof.
  intros [-> | ->]; reflexivity.
Qed.

Lemma lazyGroup_spec (s parameter : string) :
  regexp.lazyGroup s = Some parameter ->
  allBytes notNewline parameter = true /\
  exists after, s = parameter ++ ";FF" ++ after.
Proof.
  revert parameter; induction s as [|c s IH]; intros parameter H.
  - simpl in H. discriminate.
  - cbn [regexp.lazyGroup] in H.
    destruct (strings.HasPrefix (String c s) ";FF") eqn:Hp.
    + injection H as <-. split; [reflexivity|].
      apply HasPrefix_iff in Hp as [rest ->]. now exists rest.
    + destruct (Ascii.eqb c regexp.newline) eqn:Hc; [discriminate|].
      destruct (regexp.lazyGroup s) as [p|]; [|discriminate].
      injection H as <-.
      destruct (IH p eq_refl) as (Hall & after & ->).
      split.
      * simpl. unfold notNewline at 1. now rewrite Hc.
      * now exists after.
Qed.

Lemma lazyGroup_complete (parameter after : string) :
  allBytes notNewline parameter = true ->
  exists found, regexp.lazyGroup (parameter ++ ";FF" ++ after) = Some found.
Proof.
  induction parameter as [|c parameter IH]; intros Hall.
  - now exists "".
  - simpl in Hall. apply andb_true_iff in Hall as [Hc Hall].
    destruct (IH Hall) as [found Hfound].
    change (String c parameter ++ ";FF" ++ after)
      with (String c (parameter ++ ";FF" ++ after)).
    cbn [regexp.lazyGroup].
    destruct (strings.HasPrefix (String c (parameter ++ ";FF" ++ after)) ";FF").
    + now exists "".
    + unfold notNewline in Hc. apply negb_true_iff in Hc. rewrite Hc, Hfound.
      now exists (String c found).
Qed.

Lemma matchHere_spec (s : string) (matches : list string) :
  regexp.matchHere s = Some matches ->
  exists address ack parameter after,
    Frame address ack parameter /\
    s = frameText address ack parameter ++ after /\
    matches = [frameText address ack parameter; address; parameter].
Proof.
  unfold regexp.matchHere. intros H.
  destruct s as [|c s1]; [discriminate|].
  destruct (Ascii.eqb_spec c "@") as [-> | Hne].
  2:{ destruct c as [[] [] [] [] [] [] [] []]; try discriminate. now elim Hne. }
  destruct (regexp.digitRun s1) as [address s2] eqn:Hrun.
  apply digitRun_spec in Hrun as (-> & Hdigits & _).
  destruct address as [|a address]; [discriminate|].
  destruct (regexp.tag s2) as [[ack s3]|] eqn:Htag; [|discriminate].
  apply tag_spec in Htag as [Hack ->].
  destruct (regexp.lazyGroup s3) as [parameter|] eqn:Hgroup; [|discriminate].
  apply lazyGroup_spec in Hgroup as (Hline & after & ->).
  injection H as <-.
  exists (String a address), ack, parameter, after.
  repeat split; try assumption; try discriminate.
  unfold frameText. simpl. f_equal. now rewrite !append_assoc.
Qed.

Lemma matchHere_complete (address ack parameter after : string) :
  Frame address ack parameter ->
  exists matches,
    regexp.matchHere (frameText address ack parameter ++ after) = Some matches.
Proof.
  intros (Hne & Hdigits & Hack & Hline).
  unfold frameText. simpl.
  replace ((address ++ ack ++ parameter ++ ";FF") ++ after)
    with (address ++ ack ++ parameter ++ ";FF" ++ after)
    by now rewrite !append_assoc.
  rewrite digitRun_unique; [|assumption|].
  2:{ destruct Hack as [-> | ->]; reflexivity. }
  destruct address as [|a address]; [now elim Hne|].
  rewrite (tag_complete _ _ Hack).
  destruct (lazyGroup_complete parameter after Hline) as [found ->].
  eexists; reflexivity.
Qed.

Lemma FindStringSubmatch_spec (s : string) :
  regexp.FindStringSubmatch s = [] \/
  exists before address ack parameter after,
    Frame address ack parameter /\
    s = before ++ frameText address ack parameter ++ after /\
    regexp.FindStringSubmatch s = [frameText address ack parameter; address; parameter].
Proof.
  induction s as [|c s IH].
  - left. reflexivity.
  - cbn [regexp.FindStringSubmatch].
    destruct (regexp.matchHere (String c s)) as [matches|] eqn:Hm.
    + right. apply matchHere_spec in Hm as (a & k & p & after & Hf & Hs & ->).
      exists "", a, k, p, after. split; [exact Hf | split; [exact Hs | reflexivity]].
    + destruct IH as [IH | (before & a & k & p & after & Hf & -> & IH)].
      * now left.
      * right. exists (String c before), a, k, p, after.
        split; [exact Hf | split; [reflexivity | exact IH]].
Qed.

Lemma FindStringSubmatch_unfold (s : string) :
  regexp.FindStringSubmatch s =
  match regexp.matchHere s with
  | Some matches => matches
  | None =>
      match s with
      | EmptyString => []
      | String _ s' => regexp.FindStringSubmatch s'
      end
  end.
Proof.
  destruct s; reflexivity.
Qed.

Lemma FindStringSubmatch_complete (s : string) :
  ContainsFrame s -> regexp.FindStringSubmatch s <> [].
Proof.
  intros (before & a & k & p & after & Hf & ->).
  induction before as [|c before IH].
  - change ("" ++ frameText a k p ++ after) with (frameText a k p ++ after).
    destruct (matchHere_complete a k p after Hf) as [matches Hm].
    rewrite FindStringSubmatch_unfold, Hm.
    apply matchHere_spec in Hm as (? & ? & ? & ? & _ & _ & ->); discriminate.
  - change (String c before ++ frameText a k p ++ after)
      with (String c (before ++ frameText a k p ++ after)).
    cbn [regexp.FindStringSubmatch].
    destruct (regexp.matchHere (String c (before ++ frameText a k p ++ after)))
      as [matches|] eqn:Hm; [|exact IH].
    apply matchHere_spec in Hm as (? & ? & ? & ? & _ & _ & ->); discriminate.
Qed.

(** The search finds nothing exactly when no frame occurs in the body, and
    what it finds has the whole match and the two groups. *)
Lemma FindStringSubmatch_length (s : string) :
  (List.length (regexp.FindStringSubmatch s) <? 3)%nat = true <-> ~ ContainsFrame s.
Proof.
  split.
  - intros Hlen Hc. apply FindStringSubmatch_complete in Hc.
    destruct (FindStringSubmatch_spec s) as [H | (? & ? & ? & ? & ? & _ & _ & H)].
    + contradiction.
    + rewrite H in Hlen. discriminate.
  - intros Hn.
    destruct (FindStringSubmatch_spec s) as [H | (b & a & k & p & after & Hf & Hs & _)].
    + now rewrite H.
    + elim Hn. now exists b, a, k, p, after.
Qed.

(** ** The command gateway *)

Lemma Query_not_connected (m : MKS937B) (command : string) :
  unicomm.connected (Communication m) = false ->
  Query command m = (Err ErrNotConnected, m).
Proof.
  intros Hc. unfold Query, bind, IsConnected, unicomm.IsConnected.
  now rewrite Hc.
Qed.

Lemma Set_not_connected (m : MKS937B) (command parameter : string) :
  unicomm.connected (Communication m) = false ->
  Set_ command parameter m = (Err (Errorf "no MKS937B is connected"), m).
Proof.
  intros Hc. unfold Set_, bind, IsConnected, unicomm.IsConnected.
  now rewrite Hc.
Qed.

(** One exchange of [Query] on a connected line. *)
Lemma Query_connected (m : MKS937B) (command : string) :
  unicomm.connected (Communication m) = true ->
  Query command m =
  (match fst (nextAnswer m) with
   | inl response => queryVerdict (Address m) command response
   | inr reason => Err (ErrTransport reason)
   end,
   exchanged m (queryFrame (Address m) command) (snd (nextAnswer m))).
Proof.
  intros Hc.
  unfold Query, bind, IsConnected, unicomm.IsConnected, getAddress,
    CommunicationWrite, CommunicationReadUntil, unicomm.ReadUntil, nextAnswer.
  rewrite Hc. cbn -[regexp.FindStringSubmatch fmt.d03 String.eqb append Nat.ltb].
  destruct (unicomm.incoming (Communication m)) as [|[response | reason] rest] eqn:Hin;
    try reflexivity.
  { unfold unicomm.Write, exchanged, sent. now rewrite Hin. }
  unfold queryVerdict, queryFrame, fail, ret.
  cbn -[regexp.FindStringSubmatch fmt.d03 String.eqb append Nat.ltb].
  repeat case_if; reflexivity.
Qed.

Lemma Query_exchange (m : MKS937B) (command : string)
    (answer : string + string) (rest : list (string + string)) :
  unicomm.connected (Communication m) = true ->
  unicomm.incoming (Communication m) = answer :: rest ->
  Query command m =
  (match answer with
   | inl response => queryVerdict (Address m) command response
   | inr reason => Err (ErrTransport reason)
   end,
   exchanged m (queryFrame (Address m) command) rest).
Proof.
  intros Hc Hin. rewrite (Query_connected _ _ Hc).
  unfold nextAnswer. now rewrite Hin.
Qed.

(** One exchange of [Set] on a connected line. *)
Lemma Set_connected (m : MKS937B) (command parameter : string) :
  unicomm.connected (Communication m) = true ->
  Set_ command parameter m =
  (match fst (nextAnswer m) with
   | inl response => setVerdict (Address m) command parameter response
   | inr reason => Err (ErrTransport reason)
   end,
   exchanged m (setFrame (Address m) command parameter) (snd (nextAnswer m))).
Proof.
  intros Hc.
  unfold Set_, bind, IsConnected, unicomm.IsConnected, getAddress,
    CommunicationWrite, CommunicationReadUntil, unicomm.ReadUntil, nextAnswer.
  rewrite Hc. cbn -[regexp.FindStringSubmatch fmt.d03 String.eqb append Nat.ltb].
  destruct (unicomm.incoming (Communication m)) as [|[response | reason] rest] eqn:Hin;
    try reflexivity.
  { unfold unicomm.Write, exchanged, sent. now rewrite Hin. }
  unfold setVerdict, setFrame, fail, ret.
  cbn -[regexp.FindStringSubmatch fmt.d03 String.eqb append Nat.ltb].
  repeat case_if; reflexivity.
Qed.

Lemma Set_exchange (m : MKS937B) (command parameter : string)
    (answer : string + string) (rest : list (string + string)) :
  unicomm.connected (Communication m) = true ->
  unicomm.incoming (Communication m) = answer :: rest ->
  Set_ command parameter m =
  (match answer with
   | inl response => setVerdict (Address m) command parameter response
   | inr reason => Err (ErrTransport reason)
   end,
   exchanged m (setFrame (Address m) command parameter) rest).
Proof.
  intros Hc Hin. rewrite (Set_connected _ _ _ Hc).
  unfold nextAnswer. now rewrite Hin.
Qed.

Lemma Query_errors (m : MKS937B) (command : string) :
  match fst (Query command m) with
  | Ok _ => True
  | Err e => gatewayError e
  | Panic _ _ => False
  end.
Proof.
  destruct (unicomm.connected (Communication m)) eqn:Hc.
  - rewrite (Query_connected _ _ Hc). cbn [fst].
    destruct (fst (nextAnswer m)); [|exact I].
    unfold queryVerdict. repeat case_if; exact I.
  - rewrite (Query_not_connected _ _ Hc). exact I.
Qed.

Lemma Set_errors (m : MKS937B) (command parameter : string) :
  match fst (Set_ command parameter m) with
  | Ok _ => True
  | Err e => gatewayError e
  | Panic _ _ => False
  end.
Proof.
  destruct (unicomm.connected (Communication m)) eqn:Hc.
  - rewrite (Set_connected _ _ _ Hc). cbn [fst].
    destruct (fst (nextAnswer m)); [|exact I].
    unfold setVerdict. repeat case_if; exact I.
  - rewrite (Set_not_connected _ _ _ Hc). exact I.
Qed.

(** What the two verdicts do once a frame has been found. *)
Lemma verdicts_on_frame (address : Z) (command parameter response : string) :
  ContainsFrame response ->
  let found := nth 1 (regexp.FindStringSubmatch response) "" in
  let value := nth 2 (regexp.FindStringSubmatch response) "" in
  (exists before ack after,
     Frame found ack value /\
     response = before ++ frameText found ack value ++ after) /\
  queryVerdict address command response =
    (if String.eqb found (fmt.d03 address) then Ok value
     else Err (ErrUnexpectedAddress (fmt.d03 address) found)) /\
  setVerdict address command parameter response =
    (if String.eqb found (fmt.d03 address)
     then if String.eqb value parameter then Ok tt
          else Err (ErrUnexpectedParameter parameter value)
     else Err (ErrUnexpectedAddress (fmt.d03 address) found)).
Proof.
  intros Hframe found value.
  assert (Hlen : (List.length (regexp.FindStringSubmatch response) <? 3)%nat = false).
  { destruct (_ <? 3)%nat eqn:H; [|reflexivity].
    apply FindStringSubmatch_length in H. contradiction. }
  split; [|split].
  - destruct (FindStringSubmatch_spec response)
      as [H | (before & a & k & p & after & Hf & Hs & H)].
    + rewrite H in Hlen. discriminate.
    + subst found value. rewrite H. simpl. now exists before, k, after.
  - unfold queryVerdict. rewrite Hlen. fold found value.
    now destruct (String.eqb found (fmt.d03 address)).
  - unfold setVerdict. rewrite Hlen. fold found value.
    destruct (String.eqb found (fmt.d03 address)); [|reflexivity].
    now destruct (String.eqb value parameter).
Qed.

(** C5 (as the code has it).  On a device that is not connected, [Query]
    fails with the sentinel [ErrNotConnected] and [Set] fails with a
    different error, the untyped text "no MKS937B is connected"; neither
    writes to the transport, the handle being left as it was. *)
Theorem not_connected_Query_and_Set :
  forall (m : MKS937B) (command parameter : string),
    unicomm.connected (Communication m) = false ->
    Query command m = (Err ErrNotConnected, m) /\
    Set_ command parameter m = (Err (Errorf "no MKS937B is connected"), m) /\
    fst (Set_ command parameter m) <> Err ErrNotConnected.
Proof.
  intros m command parameter Hc.
  rewrite (Query_not_connected _ _ Hc), (Set_not_connected _ _ _ Hc).
  repeat split. discriminate.
Qed.

(** The same at a device at address 48 that was never connected. *)
Lemma not_connected_Query_and_Set_witness :
  unicomm.connected (Communication (device 48 false [])) = false /\
  Query "AD" (device 48 false []) = (Err ErrNotConnected, device 48 false []) /\
  Set_ "AD" "048" (device 48 false []) =
    (Err (Errorf "no MKS937B is connected"), device 48 false []) /\
  fst (Set_ "AD" "048" (device 48 false [])) <> Err ErrNotConnected.
Proof.
  split; [reflexivity|].
  apply (not_connected_Query_and_Set (device 48 false []) "AD" "048").
  reflexivity.
Defined.

(** C2.  After a response in which the search finds a frame, [Query] fails
    with [UnexpectedAddress] exactly when the address group differs from the
    zero-padded address of the request, and otherwise returns the parameter
    group as it stands; [Set] fails with [UnexpectedAddress] in the same
    case, with [UnexpectedParameter] exactly when the address agrees and the
    parameter group is not the parameter sent, and succeeds otherwise.  The
    two groups are the address and the parameter of a frame that occurs in
    the response. *)
Theorem Query_Set_post_match :
  forall (m : MKS937B) (command parameter response : string)
         (rest : list (string + string)),
    unicomm.connected (Communication m) = true ->
    unicomm.incoming (Communication m) = inl response :: rest ->
    ContainsFrame response ->
    let found := nth 1 (regexp.FindStringSubmatch response) "" in
    let value := nth 2 (regexp.FindStringSubmatch response) "" in
    let expected := fmt.d03 (Address m) in
    (exists before ack after,
       Frame found ack value /\
       response = before ++ frameText found ack value ++ after) /\
    (isUnexpectedAddress (fst (Query command m)) <-> found <> expected) /\
    (found <> expected ->
     fst (Query command m) = Err (ErrUnexpectedAddress expected found)) /\
    (found = expected -> fst (Query command m) = Ok value) /\
    (isUnexpectedAddress (fst (Set_ command parameter m)) <-> found <> expected) /\
    (isUnexpectedParameter (fst (Set_ command parameter m)) <->
     found = expected /\ value <> parameter) /\
    (found = expected -> value <> parameter ->
     fst (Set_ command parameter m) = Err (ErrUnexpectedParameter parameter value)) /\
    (found = expected -> value = parameter ->
     fst (Set_ command parameter m) = Ok tt).
Proof.
  intros m command parameter response rest Hc Hin Hframe found value expected.
  rewrite (Query_exchange m command _ rest Hc Hin).
  rewrite (Set_exchange m command parameter _ rest Hc Hin).
  cbn [fst].
  destruct (verdicts_on_frame (Address m) command parameter response Hframe)
    as (Hgroups & -> & ->).
  fold found value expected.
  split; [exact Hgroups|].
  destruct (String.eqb_spec found expected) as [Ha | Ha];
    destruct (String.eqb_spec value parameter) as [Hp | Hp];
    unfold isUnexpectedAddress, isUnexpectedParameter;
    repeat split; intros; try tauto; try discriminate;
    repeat match goal with
           | H : exists _, _ |- _ => destruct H
           | H : _ /\ _ |- _ => destruct H
           end;
    try discriminate; try contradiction; eauto.
Qed.

(** The round trip of the baud rate: the device at address 48 echoes 9600. *)
Lemma Query_Set_post_match_witness :
  unicomm.connected (Communication (device 48 true ["@048ACK9600;FF"])) = true /\
  fst (Query "BR" (device 48 true ["@048ACK9600;FF"])) = Ok "9600" /\
  fst (Set_ "BR" "9600" (device 48 true ["@048ACK9600;FF"])) = Ok tt.
Proof.
  assert (Hframe : ContainsFrame "@048ACK9600;FF").
  { exists "", "048", "ACK", "9600", "". repeat split; try reflexivity.
    - discriminate.
    - now left. }
  destruct (Query_Set_post_match (device 48 true ["@048ACK9600;FF"])
              "BR" "9600" "@048ACK9600;FF" [] eq_refl eq_refl Hframe)
    as (_ & _ & _ & Hq & _ & _ & _ & Hs).
  split; [reflexivity|].
  split; [apply Hq | apply Hs]; reflexivity.
Defined.

Lemma lastByte_append (a b : string) :
  b <> "" -> lastByte (a ++ b) = lastByte b.
Proof.
  intros Hb. induction a as [|c a IH]; [reflexivity|].
  simpl. rewrite IH. destruct (a ++ b) eqn:E; [|reflexivity].
  destruct a; [simpl in E; contradiction | discriminate].
Qed.

Lemma frameText_lastByte (address ack parameter : string) :
  lastByte (frameText address ack parameter) = Some "F"%char.
Proof.
  unfold frameText.
  replace ("@" ++ address ++ ack ++ parameter ++ ";FF")
    with (("@" ++ address ++ ack ++ parameter) ++ ";FF")
    by (simpl; now rewrite !append_assoc).
  rewrite lastByte_append; [reflexivity | discriminate].
Qed.

(** C3 (as stated, refuted).  The pattern is not anchored: a body with text
    before the [@], and a body with text after the [;FF], is no frame as a
    whole, and yet [Query] and [Set] accept it. *)
Lemma anchored_pattern_counterexample :
  (~ WholeFrame "x@001ACK1;FF" /\
   fst (Query "AD" (device 1 true ["x@001ACK1;FF"])) = Ok "1" /\
   fst (Set_ "AD" "1" (device 1 true ["x@001ACK1;FF"])) = Ok tt) /\
  (~ WholeFrame "@001ACK1;FFyy" /\
   fst (Query "AD" (device 1 true ["@001ACK1;FFyy"])) = Ok "1" /\
   fst (Set_ "AD" "1" (device 1 true ["@001ACK1;FFyy"])) = Ok tt).
Proof.
  split; (split; [|split; reflexivity]).
  - intros (a & k & p & _ & _ & _ & H). unfold frameText in H. discriminate.
  - intros (a & k & p & _ & _ & _ & H).
    apply (f_equal lastByte) in H. rewrite frameText_lastByte in H.
    discriminate.
Qed.

(** C3 (amended).  For every raw response body read on a connected line,
    [Query] and [Set] fail with [UnexpectedReply] exactly when no frame
    [@<digits>(ACK|NAK)<bytes other than a line feed>;FF] occurs anywhere in
    the body; the error carries the frame sent and the body.  Text before
    the [@] or after the [;FF] is tolerated, and a frame with either tag is
    accepted. *)
Theorem unexpected_reply_iff_no_frame :
  forall (m : MKS937B) (command parameter response : string)
         (rest : list (string + string)),
    unicomm.connected (Communication m) = true ->
    unicomm.incoming (Communication m) = inl response :: rest ->
    (isUnexpectedReply (fst (Query command m)) <-> ~ ContainsFrame response) /\
    (isUnexpectedReply (fst (Set_ command parameter m)) <-> ~ ContainsFrame response) /\
    (~ ContainsFrame response ->
     fst (Query command m) =
       Err (ErrUnexpectedReply (queryFrame (Address m) command) response) /\
     fst (Set_ command parameter m) =
       Err (ErrUnexpectedReply (setFrame (Address m) command parameter) response)) /\
    (forall before address ack echoed after,
       Frame address ack echoed ->
       response = before ++ frameText address ack echoed ++ after ->
       ~ isUnexpectedReply (fst (Query command m)) /\
       ~ isUnexpectedReply (fst (Set_ command parameter m))).
Proof.
  intros m command parameter response rest Hc Hin.
  rewrite (Query_exchange m command _ rest Hc Hin).
  rewrite (Set_exchange m command parameter _ rest Hc Hin).
  cbn [fst].
  assert (Hyes : ContainsFrame response ->
                 ~ isUnexpectedReply (queryVerdict (Address m) command response) /\
                 ~ isUnexpectedReply (setVerdict (Address m) command parameter response)).
  { intros Hframe.
    destruct (verdicts_on_frame (Address m) command parameter response Hframe)
      as (_ & -> & ->).
    split; intros (s & g & H); revert H; repeat case_if; discriminate. }
  assert (Hno : ~ ContainsFrame response ->
                queryVerdict (Address m) command response =
                  Err (ErrUnexpectedReply (queryFrame (Address m) command) response) /\
                setVerdict (Address m) command parameter response =
                  Err (ErrUnexpectedReply (setFrame (Address m) command parameter) response)).
  { intros Hn. apply FindStringSubmatch_length in Hn.
    unfold queryVerdict, setVerdict. now rewrite Hn. }
  split; [|split; [|split]].
  - split.
    + intros Hu Hframe. now apply (proj1 (Hyes Hframe)).
    + intros Hn. destruct (Hno Hn) as [-> _]. now eexists _, _.
  - split.
    + intros Hu Hframe. now apply (proj2 (Hyes Hframe)).
    + intros Hn. destruct (Hno Hn) as [_ ->]. now eexists _, _.
  - exact Hno.
  - intros before address ack echoed after Hf ->.
    apply Hyes. now exists before, address, ack, echoed, after.
Qed.

(** The body "garbage" has no [@] and no [;FF]. *)
Lemma unexpected_reply_iff_no_frame_witness :
  unicomm.connected (Communication (device 48 true ["garbage"])) = true /\
  fst (Query "AD" (device 48 true ["garbage"])) =
    Err (ErrUnexpectedReply "@048AD?;FF" "garbage") /\
  fst (Set_ "AD" "048" (device 48 true ["garbage"])) =
    Err (ErrUnexpectedReply "@048AD!048;FF" "garbage").
Proof.
  split; [reflexivity|].
  destruct (unexpected_reply_iff_no_frame (device 48 true ["garbage"])
              "AD" "048" "garbage" [] eq_refl eq_refl) as (_ & _ & H & _).
  apply H. apply FindStringSubmatch_length. reflexivity.
Defined.

(** ** Channel and range guards *)

Section Guards.

Context {goFloatText : GoFloatText}.

Lemma parsePressure_errors (order : list (string * string)) (reading : string) :
  match parsePressure order reading with
  | Ok _ => True
  | Err e => exists err, e = ErrNum err
  | Panic _ _ => False
  end.
Proof.
  unfold parsePressure.
  destruct (firstContained order reading); [exact I|].
  destruct (ParseFloat reading) as [parsed [err|]]; [now exists err | exact I].
Qed.

(** A reading command past its channel guard fails, if at all, with an
    error of the gateway or of the number parser. *)
Lemma query_then_parse_errors (order : list (string * string))
    (command : string) (m : MKS937B) :
  ~ isInvalidChannel
      (fst ((response <- Query command ;; lift (parsePressure order response)) m)).
Proof.
  intros (lo & hi & ch & H). revert H. unfold bind, lift.
  pose proof (Query_errors m command) as Hq.
  destruct (Query command m) as [[response | e | i n] m']; cbn [fst] in *.
  - pose proof (parsePressure_errors order response) as Hp.
    destruct (parsePressure order response) as [r | e | i n]; intros H;
      try discriminate.
    destruct Hp as [err ->]. discriminate.
  - intros H. injection H as ->. exact Hq.
  - discriminate.
Qed.

(** C1 (as the code has it).  [GetPressure] fails with [InvalidChannel]
    exactly when [1 < channel]: it rejects the channels 2 to 6 and lets every
    channel below 2 through to the query, zero and the negative ones
    included.  [GetPressureCombination] fails with [InvalidChannel] exactly
    when the channel is outside 1 and 2. *)
Theorem GetPressure_channel_guard :
  forall (order : list (string * string)) (channel : Z) (m : MKS937B),
    (isInvalidChannel (fst (GetPressure order channel m)) <-> (1 < channel)%Z) /\
    (isInvalidChannel (fst (GetPressureCombination order channel m)) <->
     (channel < 1 \/ 2 < channel)%Z) /\
    Forall (fun valid =>
              GetPressure order valid m = (Err (ErrInvalidChannel 1 6 valid), m))
           [2; 3; 4; 5; 6]%Z /\
    Forall (fun invalid =>
              GetPressure order invalid m =
              (response <- Query ("PR" ++ fmt.d invalid) ;;
               lift (parsePressure order response)) m)
           [0; -1; -6]%Z.
Proof.
  intros order channel m. split; [|split; [|split]].
  - unfold GetPressure.
    destruct ((1 <? channel)%Z || (channel >? 6)%Z) eqn:Hg.
    + split; intros _.
      * apply orb_true_iff in Hg as [Hg | Hg]; lia.
      * now exists 1%Z, 6%Z, channel.
    + split; intros H.
      * now apply query_then_parse_errors in H.
      * apply orb_false_iff in Hg as [Hg _]. lia.
  - unfold GetPressureCombination.
    destruct ((channel <? 1)%Z || (2 <? channel)%Z) eqn:Hg.
    + split; intros _.
      * apply orb_true_iff in Hg as [Hg | Hg]; lia.
      * now exists 1%Z, 2%Z, channel.
    + split; intros H.
      * now apply query_then_parse_errors in H.
      * apply orb_false_iff in Hg as [Hg1 Hg2]. lia.
  - repeat constructor.
  - repeat constructor.
Qed.

(** No number is both below [1e-5] and above [1e-2]. *)
Lemma below_and_above (x : float) :
  ((x <? 1e-5) && (1e-2 <? x))%float = false.
Proof.
  rewrite !ltb_spec. unfold SFltb.
  let lo := eval vm_compute in (Prim2SF 1e-5) in
  change (Prim2SF 1e-5) with lo.
  let hi := eval vm_compute in (Prim2SF 1e-2) in
  change (Prim2SF 1e-2) with hi.
  destruct (Prim2SF x) as [s | s | | s mx ex]; try (destruct s; reflexivity);
    try reflexivity.
  destruct s; [reflexivity|].
  unfold SFcompare.
  destruct (Z.compare_spec ex (-69)) as [He | He | He];
    destruct (Z.compare_spec (-59) ex) as [He' | He' | He'];
    try reflexivity; try lia.
  all: rewrite ?andb_false_r; try reflexivity.
Qed.

Lemma SetProtectionTarget_guard (target : float) :
  (negb (target =? 0) && (target <? 1e-5) && (1e-2 <? target))%float = false.
Proof.
  rewrite <- andb_assoc, below_and_above. apply andb_false_r.
Qed.

(** C4 (as the code has it).  The range guard of [SetProtectionTarget] never
    fires, whatever the target: on the channels 1, 3 and 5 every target is
    passed on to the set command [PRO<channel>], and no call fails with
    [InvalidPRO].  The targets 1 and 1e-7, nonzero and outside the range,
    are written to the line. *)
Theorem SetProtectionTarget_range_guard :
  forall (target : float) (m : MKS937B),
    Forall (fun channel =>
              SetProtectionTarget channel target m =
              Set_ ("PRO" ++ fmt.d channel) (Sprintf_2E target) m)
           [1; 3; 5]%Z /\
    (forall channel, ~ isInvalidPRO (fst (SetProtectionTarget channel target m))) /\
    sent (snd (SetProtectionTarget 1 1 (device 48 true []))) =
      [setFrame 48 "PRO1" (Sprintf_2E 1)] /\
    sent (snd (SetProtectionTarget 1 1e-7 (device 48 true []))) =
      [setFrame 48 "PRO1" (Sprintf_2E 1e-7)].
Proof.
  intros target m. split; [|split; [|split]].
  - repeat constructor; unfold SetProtectionTarget; cbn [slices_Contains existsb];
      cbn -[PrimFloat.ltb PrimFloat.eqb Set_ fmt.d append];
      now rewrite SetProtectionTarget_guard.
  - intros channel (got & H). revert H. unfold SetProtectionTarget.
    destruct (negb (slices_Contains [1; 3; 5]%Z channel)); [discriminate|].
    rewrite SetProtectionTarget_guard.
    pose proof (Set_errors m ("PRO" ++ fmt.d channel) (Sprintf_2E target)) as Hs.
    destruct (fst (Set_ _ _ m)); try discriminate.
    intros H. injection H as ->. exact Hs.
  - reflexivity.
  - reflexivity.
Qed.

End Guards.

(** ** The reading decoder *)

Lemma firstContained_Some (order : list (string * string)) (reading description : string) :
  firstContained order reading = Some description ->
  exists key, In (key, description) order /\ strings.Contains reading key = true.
Proof.
  induction order as [|[key d] order IH]; simpl; [discriminate|].
  destruct (strings.Contains reading key) eqn:Hc.
  - intros H. injection H as <-. exists key. split; [now left | assumption].
  - intros H. destruct (IH H) as (key' & Hin & Hc'). exists key'. split; [now right | assumption].
Qed.

Lemma firstContained_None (order : list (string * string)) (reading : string) :
  firstContained order reading = None <->
  forall key description,
    In (key, description) order -> strings.Contains reading key = false.
Proof.
  induction order as [|[key d] order IH]; simpl.
  - split; [intros _ ? ? [] | reflexivity].
  - destruct (strings.Contains reading key) eqn:Hc.
    + split; [discriminate|]. intros H.
      rewrite (H key d) in Hc; [discriminate | now left].
    + rewrite IH. split.
      * intros H key' d' [Heq | Hin]; [now injection Heq as <- <- | eauto].
      * intros H key' d' Hin. apply (H key' d'). now right.
Qed.

(** A reading whose tokens all carry one description decodes to it, in
    whatever order the table is visited. *)
Lemma firstContained_unambiguous (order : list (string * string))
    (reading token description : string) :
  rangeOrder order ->
  In (token, description) stringResponse ->
  strings.Contains reading token = true ->
  (forall key d, In (key, d) stringResponse ->
                 strings.Contains reading key = true -> d = description) ->
  firstContained order reading = Some description.
Proof.
  intros Hperm Hin Hc Hsame.
  destruct (firstContained order reading) as [d|] eqn:Hf.
  - apply firstContained_Some in Hf as (key & Hkey & Hck).
    f_equal. apply (Hsame key d); [|assumption].
    now apply (Permutation_in _ Hperm).
  - rewrite firstContained_None in Hf.
    rewrite (Hf token description) in Hc; [discriminate|].
    now apply (Permutation_in _ (Permutation_sym Hperm)).
Qed.

Ltac each_token H :=
  simpl in H;
  repeat (destruct H as [H | H];
          [injection H as <- <-; try reflexivity; try discriminate |]);
  try contradiction.

Section Decoder.

Context {goFloatText : GoFloatText}.

(** C7 (as the code has it).  In every order in which the table is
    visited: a body that contains a token decodes to the value 0 and the
    description of a token it contains, and to the description of that very
    token when all the tokens it contains carry one description; a body
    that contains no token decodes to the value [ParseFloat] gives with the
    status "OK", or fails with its parse error.  "LO<" yields "Pressure
    lower than minimum" and "NOGAUGE" yields "Controller unable to determine
    sensor connection".  But the table keys "CTRL_OFF" and "PROT_OFF" contain
    the key "OFF" as well: visited in the order the table is written in,
    they decode to the description of "OFF" and not to their own. *)
Theorem parsePressure_token_description :
  (forall (order : list (string * string)) (reading : string),
     rangeOrder order ->
     ((exists token description,
         In (token, description) stringResponse /\
         strings.Contains reading token = true) ->
      exists token description,
        In (token, description) stringResponse /\
        strings.Contains reading token = true /\
        parsePressure order reading = Ok {| value := 0; status := description |}) /\
     (forall token description,
        In (token, description) stringResponse ->
        strings.Contains reading token = true ->
        (forall other description',
           In (other, description') stringResponse ->
           strings.Contains reading other = true ->
           description' = description) ->
        parsePressure order reading = Ok {| value := 0; status := description |}) /\
     ((forall token description,
         In (token, description) stringResponse ->
         strings.Contains reading token = false) ->
      (forall parsed, ParseFloat reading = (parsed, None) ->
         parsePressure order reading = Ok {| value := parsed; status := "OK" |}) /\
      (forall parsed err, ParseFloat reading = (parsed, Some err) ->
         parsePressure order reading = Err (ErrNum err))) /\
     parsePressure order "LO<" =
       Ok {| value := 0; status := "Pressure lower than minimum" |} /\
     parsePressure order "NOGAUGE" =
       Ok {| value := 0;
             status := "Controller unable to determine sensor connection" |}) /\
  rangeOrder writtenOrder /\
  (In ("CTRL_OFF", "CC or HC if OFF in controlled state") stringResponse /\
   strings.Contains "CTRL_OFF" "CTRL_OFF" = true /\
   parsePressure writtenOrder "CTRL_OFF" =
     Ok {| value := 0; status := "Cold cathode HV if OFF, or HC/PR/CP power if OFF" |} /\
   parsePressure writtenOrder "CTRL_OFF" <>
     Ok {| value := 0; status := "CC or HC if OFF in controlled state" |}) /\
  (In ("PROT_OFF", "CC or HC if OFF in protected state") stringResponse /\
   strings.Contains "PROT_OFF" "PROT_OFF" = true /\
   parsePressure writtenOrder "PROT_OFF" =
     Ok {| value := 0; status := "Cold cathode HV if OFF, or HC/PR/CP power if OFF" |} /\
   parsePressure writtenOrder "PROT_OFF" <>
     Ok {| value := 0; status := "CC or HC if OFF in protected state" |}).
Proof.
  split; [|split; [apply Permutation_refl | split]].
  - intros order reading Hperm. unfold parsePressure.
    split; [|split; [|split; [|split]]].
    + intros (token & description & Hin & Hc).
      destruct (firstContained order reading) as [d|] eqn:Hf.
      * apply firstContained_Some in Hf as (key & Hkey & Hck).
        exists key, d. split; [now apply (Permutation_in _ Hperm) | now split].
      * rewrite firstContained_None in Hf.
        rewrite (Hf token description) in Hc; [discriminate|].
        now apply (Permutation_in _ (Permutation_sym Hperm)).
    + intros token description Hin Hc Hsame.
      now rewrite (firstContained_unambiguous order reading token description
                     Hperm Hin Hc Hsame).
    + intros Hnone.
      assert (Hf : firstContained order reading = None).
      { apply firstContained_None. intros key d Hin.
        apply (Hnone key d). now apply (Permutation_in _ Hperm). }
      rewrite Hf. split.
      * intros parsed ->. reflexivity.
      * intros parsed err ->. reflexivity.
    + rewrite (firstContained_unambiguous order "LO<" "LO<"
                 "Pressure lower than minimum" Hperm); [reflexivity | | |].
      * simpl. tauto.
      * reflexivity.
      * intros key d Hin. each_token Hin.
    + rewrite (firstContained_unambiguous order "NOGAUGE" "NOGAUGE"
                 "Controller unable to determine sensor connection" Hperm);
        [reflexivity | | |].
      * simpl. tauto.
      * reflexivity.
      * intros key d Hin. each_token Hin.
  - split; [simpl; tauto | split; [reflexivity | split; [reflexivity | discriminate]]].
  - split; [simpl; tauto | split; [reflexivity | split; [reflexivity | discriminate]]].
Qed.

Lemma specificFirst_rangeOrder : rangeOrder specificFirst.
Proof.
  unfold rangeOrder, specificFirst, stringResponse.
  apply (Permutation_cons_app
           [ ("LO<", "Pressure lower than minimum");
             ("ATM", "PR when pressure is lower than 450 Torr");
             ("OFF", "Cold cathode HV if OFF, or HC/PR/CP power if OFF");
             ("WAIT", "CC or HC startup delay");
             ("LowEmis", "HC OFF due to lowe emission") ]).
  apply Permutation_refl.
Qed.

(** C9 (as the code has it).  The decoder depends on the order in which the
    table is visited: "OFF" is a substring of "CTRL_OFF" and of "PROT_OFF",
    the three carry different descriptions, and the body "CTRL_OFF" decodes
    to the description of "OFF" in one order of the table and to that of
    "CTRL_OFF" in another. *)
Theorem parsePressure_depends_on_order :
  exists order1 order2,
    rangeOrder order1 /\ rangeOrder order2 /\
    strings.Contains "CTRL_OFF" "OFF" = true /\
    strings.Contains "PROT_OFF" "OFF" = true /\
    parsePressure order1 "CTRL_OFF" =
      Ok {| value := 0; status := "Cold cathode HV if OFF, or HC/PR/CP power if OFF" |} /\
    parsePressure order2 "CTRL_OFF" =
      Ok {| value := 0; status := "CC or HC if OFF in controlled state" |} /\
    parsePressure order1 "CTRL_OFF" <> parsePressure order2 "CTRL_OFF".
Proof.
  exists writtenOrder, specificFirst.
  split; [apply Permutation_refl|].
  split; [apply specificFirst_rangeOrder|].
  repeat split. discriminate.
Qed.

End Decoder.


(** ** The all-channel read *)

Lemma setIndex_within {A} (done rest : list A) (old x : A) :
  setIndex (done ++ old :: rest)%list (List.length done) x =
  Some (done ++ x :: rest)%list.
Proof.
  induction done as [|y done IH]; simpl; [reflexivity | now rewrite IH].
Qed.

Lemma setIndex_beyond {A} (l : list A) (x : A) :
  setIndex l (List.length l) x = None.
Proof.
  induction l as [|y l IH]; simpl; [reflexivity | now rewrite IH].
Qed.

Lemma skipn_repeat {A} (x : A) (k n : nat) :
  skipn k (repeat x n) = repeat x (n - k).
Proof.
  revert k; induction n as [|n IH]; intros [|k]; simpl; try reflexivity.
  apply IH.
Qed.

Section AllChannels.

Context {goFloatText : GoFloatText}.

Variable orders : nat -> list (string * string).

Lemma decodeFields_length (fields : list string) :
  forall idx readings,
    decodeFields orders idx fields = Ok readings ->
    List.length readings = List.length fields.
Proof.
  induction fields as [|field fields IH]; simpl; intros idx readings H.
  - now injection H as <-.
  - destruct (parsePressure (orders idx) field); try discriminate.
    destruct (decodeFields orders (S idx) fields) eqn:Hd; try discriminate.
    injection H as <-. simpl. f_equal. eapply IH, Hd.
Qed.

(** The decoded fields are the fields decoded one by one, in field order. *)
Lemma decodeFields_nth (fields : list string) :
  forall idx readings i,
    decodeFields orders idx fields = Ok readings ->
    (i < List.length fields)%nat ->
    parsePressure (orders (idx + i)%nat) (nth i fields "") =
    Ok (nth i readings zeroReading).
Proof.
  induction fields as [|field fields IH]; simpl; intros idx readings i H Hi.
  - lia.
  - destruct (parsePressure (orders idx) field) eqn:Hp; try discriminate.
    destruct (decodeFields orders (S idx) fields) eqn:Hd; try discriminate.
    injection H as <-. destruct i as [|i].
    + now rewrite Nat.add_0_r.
    + simpl. rewrite Nat.add_succ_r. apply (IH (S idx)); [assumption | lia].
Qed.

(** The first field that fails to decode decides the whole. *)
Lemma decodeFields_first_failure (fields : list string) :
  forall idx i e,
    (i < List.length fields)%nat ->
    parsePressure (orders (idx + i)%nat) (nth i fields "") = Err e ->
    (forall j, (j < i)%nat ->
               exists r, parsePressure (orders (idx + j)%nat) (nth j fields "") = Ok r) ->
    decodeFields orders idx fields = Err e.
Proof.
  induction fields as [|field fields IH]; simpl; intros idx i e Hi He Hbefore.
  - lia.
  - destruct i as [|i].
    + rewrite Nat.add_0_r in He. now rewrite He.
    + destruct (Hbefore 0%nat ltac:(lia)) as [r Hr].
      rewrite Nat.add_0_r in Hr. simpl in Hr. rewrite Hr.
      rewrite (IH (S idx) i e); [reflexivity | lia | |].
      * now rewrite Nat.add_succ_r in He.
      * intros j Hj. destruct (Hbefore (S j) ltac:(lia)) as [r' Hr'].
        exists r'. now rewrite Nat.add_succ_r in Hr'.
Qed.

Lemma decodeFields_all_decode (fields : list string) :
  forall idx,
    (forall i, (i < List.length fields)%nat ->
               exists r, parsePressure (orders (idx + i)%nat) (nth i fields "") = Ok r) ->
    exists readings, decodeFields orders idx fields = Ok readings.
Proof.
  induction fields as [|field fields IH]; simpl; intros idx Hall.
  - now exists [].
  - destruct (Hall 0%nat ltac:(lia)) as [r Hr].
    rewrite Nat.add_0_r in Hr. rewrite Hr.
    destruct (IH (S idx)) as [readings ->].
    + intros i Hi. destruct (Hall (S i) ltac:(lia)) as [r' Hr'].
      exists r'. now rewrite Nat.add_succ_r in Hr'.
    + now exists (r :: readings).
Qed.

(** The loop on a response with no more fields than the slice has room
    for. *)
Lemma fillPressures_within (fields : list string) :
  forall idx done rest,
    List.length done = idx ->
    (List.length fields <= List.length rest)%nat ->
    fillPressures orders idx fields (done ++ rest)%list =
    match decodeFields orders idx fields with
    | Ok readings => Ok (done ++ readings ++ skipn (List.length fields) rest)%list
    | Err e => Err e
    | Panic i n => Panic i n
    end.
Proof.
  induction fields as [|field fields IH]; simpl; intros idx done rest Hdone Hlen.
  - reflexivity.
  - destruct (parsePressure (orders idx) field) as [pressure | e | i n]; try reflexivity.
    destruct rest as [|old rest]; [simpl in Hlen; lia|].
    rewrite <- Hdone, setIndex_within.
    replace (done ++ pressure :: rest)%list with ((done ++ [pressure]) ++ rest)%list
      by now rewrite <- app_assoc.
    rewrite IH.
    + destruct (decodeFields orders (S (List.length done)) fields); try reflexivity.
      now rewrite <- app_assoc.
    + rewrite length_app. simpl. lia.
    + simpl in Hlen. lia.
Qed.

(** The loop on a response with more fields than the slice has room for. *)
Lemma fillPressures_beyond (fields : list string) :
  forall idx done rest,
    List.length done = idx ->
    (List.length rest < List.length fields)%nat ->
    fillPressures orders idx fields (done ++ rest)%list =
    match decodeFields orders idx (firstn (S (List.length rest)) fields) with
    | Ok _ => Panic (idx + List.length rest) (idx + List.length rest)
    | Err e => Err e
    | Panic i n => Panic i n
    end.
Proof.
  induction fields as [|field fields IH]; intros idx done rest Hdone Hlen.
  - simpl in Hlen. lia.
  - cbn [firstn fillPressures decodeFields].
    destruct (parsePressure (orders idx) field) as [pressure | e | i n]; try reflexivity.
    destruct rest as [|old rest].
    + rewrite app_nil_r, <- Hdone, setIndex_beyond. simpl.
      now rewrite Nat.add_0_r.
    + rewrite <- Hdone, setIndex_within.
      replace (done ++ pressure :: rest)%list with ((done ++ [pressure]) ++ rest)%list
        by now rewrite <- app_assoc.
      rewrite IH.
      * cbn [List.length].
        destruct (decodeFields orders (S (List.length done)) _); try reflexivity.
        now rewrite Nat.add_succ_r.
      * rewrite length_app. simpl. lia.
      * simpl in Hlen. lia.
Qed.

Lemma GetPressures_after_query (m m' : MKS937B) (response : string) :
  Query "PRZ" m = (Ok response, m') ->
  GetPressures orders m =
  (fillPressures orders 0 (strings.Split response " ") (repeat zeroReading 6), m').
Proof.
  intros Hq. unfold GetPressures, bind, lift. now rewrite Hq.
Qed.

(** C6 (amended).  When the response to [PRZ] splits into at most 6 fields,
    [GetPressures] decodes the fields one by one in field order.  If a field
    fails to decode and the fields before it decode, the whole call fails
    with the error of that field and returns no reading.  Otherwise it
    returns exactly 6 readings: the decoded fields in field order, followed
    by a zero reading for every field that is missing. *)
Theorem GetPressures_at_most_six_fields :
  forall (m m' : MKS937B) (response : string),
    Query "PRZ" m = (Ok response, m') ->
    (List.length (strings.Split response " ") <= 6)%nat ->
    let fields := strings.Split response " " in
    GetPressures orders m =
      (match decodeFields orders 0 fields with
       | Ok readings => Ok (readings ++ repeat zeroReading (6 - List.length fields))%list
       | Err e => Err e
       | Panic i n => Panic i n
       end, m') /\
    (forall i e,
       (i < List.length fields)%nat ->
       parsePressure (orders i) (nth i fields "") = Err e ->
       (forall j, (j < i)%nat ->
                  exists r, parsePressure (orders j) (nth j fields "") = Ok r) ->
       fst (GetPressures orders m) = Err e) /\
    (forall readings,
       fst (GetPressures orders m) = Ok readings ->
       List.length readings = 6%nat /\
       (forall i, (i < List.length fields)%nat ->
                  parsePressure (orders i) (nth i fields "") =
                  Ok (nth i readings zeroReading)) /\
       (forall i, (List.length fields <= i)%nat ->
                  nth i readings zeroReading = zeroReading)).
Proof.
  intros m m' response Hq Hlen fields. fold fields in Hlen.
  assert (Hrun : GetPressures orders m =
                 (match decodeFields orders 0 fields with
                  | Ok readings =>
                      Ok (readings ++ repeat zeroReading (6 - List.length fields))%list
                  | Err e => Err e
                  | Panic i n => Panic i n
                  end, m')).
  { rewrite (GetPressures_after_query _ _ _ Hq). fold fields. f_equal.
    change (repeat zeroReading 6) with ([] ++ repeat zeroReading 6)%list at 1.
    rewrite (fillPressures_within fields 0 [] (repeat zeroReading 6) eq_refl)
      by (rewrite repeat_length; exact Hlen).
    destruct (decodeFields orders 0 fields); try reflexivity.
    cbn [app]. do 2 f_equal.
    exact (skipn_repeat zeroReading (List.length fields) 6). }
  split; [exact Hrun|]. rewrite Hrun. cbn [fst]. split.
  - intros i e Hi He Hbefore.
    now rewrite (decodeFields_first_failure fields 0 i e Hi He Hbefore).
  - intros readings H.
    remember (6 - List.length fields)%nat as missing eqn:Hmissing.
    destruct (decodeFields orders 0 fields) as [decoded | |] eqn:Hd; try discriminate.
    injection H as <-.
    pose proof (decodeFields_length _ _ _ Hd) as Hdl.
    split; [|split].
    + rewrite length_app, repeat_length. lia.
    + intros i Hi. rewrite app_nth1 by lia.
      apply (decodeFields_nth fields 0 decoded i Hd Hi).
    + intros i Hi. rewrite app_nth2 by lia.
      destruct (Nat.lt_ge_cases (i - List.length decoded) missing).
      * now rewrite nth_repeat_lt.
      * rewrite nth_overflow; [reflexivity | now rewrite repeat_length].
Qed.

(** C10 (amended).  When the response to [PRZ] splits into more than 6
    fields, [GetPressures] decodes the first 7 of them in field order: if
    one of these fails to decode, the call returns the error of the first
    that fails; if all 7 decode, the store of the 7th reading indexes the
    slice of length 6 at 6, and the call panics. *)
Theorem GetPressures_more_than_six_fields :
  forall (m m' : MKS937B) (response : string),
    Query "PRZ" m = (Ok response, m') ->
    (6 < List.length (strings.Split response " "))%nat ->
    let fields := strings.Split response " " in
    GetPressures orders m =
      (match decodeFields orders 0 (firstn 7 fields) with
       | Ok _ => Panic 6 6
       | Err e => Err e
       | Panic i n => Panic i n
       end, m') /\
    ((forall i, (i < 7)%nat ->
                exists r, parsePressure (orders i) (nth i fields "") = Ok r) ->
     fst (GetPressures orders m) = Panic 6 6) /\
    (forall i e,
       (i < 7)%nat ->
       parsePressure (orders i) (nth i fields "") = Err e ->
       (forall j, (j < i)%nat ->
                  exists r, parsePressure (orders j) (nth j fields "") = Ok r) ->
       fst (GetPressures orders m) = Err e).
Proof.
  intros m m' response Hq Hlen fields. fold fields in Hlen.
  assert (Hrun : GetPressures orders m =
                 (match decodeFields orders 0 (firstn 7 fields) with
                  | Ok _ => Panic 6 6
                  | Err e => Err e
                  | Panic i n => Panic i n
                  end, m')).
  { rewrite (GetPressures_after_query _ _ _ Hq). fold fields. f_equal.
    change (repeat zeroReading 6) with ([] ++ repeat zeroReading 6)%list.
    now rewrite (fillPressures_beyond fields 0 [] (repeat zeroReading 6) eq_refl)
      by (rewrite repeat_length; exact Hlen). }
  assert (Hseven : List.length (firstn 7 fields) = 7%nat)
    by (rewrite length_firstn; lia).
  assert (Hnth : forall i, (i < 7)%nat -> nth i (firstn 7 fields) "" = nth i fields "").
  { intros i Hi. now rewrite nth_firstn, (proj2 (Nat.ltb_lt i 7) Hi). }
  split; [exact Hrun|]. rewrite Hrun. cbn [fst]. split.
  - intros Hall.
    destruct (decodeFields_all_decode (firstn 7 fields) 0) as [readings ->];
      [|reflexivity].
    intros i Hi. rewrite Hseven in Hi. rewrite (Hnth i Hi). now apply Hall.
  - intros i e Hi He Hbefore.
    rewrite (decodeFields_first_failure (firstn 7 fields) 0 i e); [reflexivity | lia | |].
    + now rewrite (Hnth i Hi).
    + intros j Hj. rewrite (Hnth j) by lia. now apply Hbefore.
Qed.

End AllChannels.

(** A response with six fields, the third and the fifth symbolic. *)
Lemma GetPressures_at_most_six_fields_witness :
  Query "PRZ" (device 48 true ["@048ACK1.0E-03 2.0E-03 OFF 1.0E-04 LO< 3.0E-03;FF"]) =
    (Ok "1.0E-03 2.0E-03 OFF 1.0E-04 LO< 3.0E-03",
     exchanged (device 48 true ["@048ACK1.0E-03 2.0E-03 OFF 1.0E-04 LO< 3.0E-03;FF"])
       "@048PRZ?;FF" []) /\
  (List.length (strings.Split "1.0E-03 2.0E-03 OFF 1.0E-04 LO< 3.0E-03" " ") <= 6)%nat /\
  fst (@GetPressures tableFloatText (fun _ => writtenOrder)
         (device 48 true ["@048ACK1.0E-03 2.0E-03 OFF 1.0E-04 LO< 3.0E-03;FF"])) =
    Ok [ {| value := 1e-3; status := "OK" |};
         {| value := 2e-3; status := "OK" |};
         {| value := 0; status := "Cold cathode HV if OFF, or HC/PR/CP power if OFF" |};
         {| value := 1e-4; status := "OK" |};
         {| value := 0; status := "Pressure lower than minimum" |};
         {| value := 3e-3; status := "OK" |} ].
Proof.
  assert (Hsix : (List.length
                    (strings.Split "1.0E-03 2.0E-03 OFF 1.0E-04 LO< 3.0E-03" " ") <= 6)%nat)
    by (simpl; lia).
  split; [reflexivity | split; [exact Hsix|]].
  destruct (@GetPressures_at_most_six_fields tableFloatText (fun _ => writtenOrder)
              (device 48 true ["@048ACK1.0E-03 2.0E-03 OFF 1.0E-04 LO< 3.0E-03;FF"])
              _ _ eq_refl Hsix) as (Hrun & _ & _).
  rewrite Hrun. reflexivity.
Defined.

(** C6 (as stated, refuted).  The response "OFF" splits into one field, not
    six; [GetPressures] succeeds on it all the same, and five of the six
    readings it returns are zero readings that no field was decoded to. *)
Lemma GetPressures_one_field_counterexample :
  List.length (strings.Split "OFF" " ") = 1%nat /\
  fst (@GetPressures tableFloatText (fun _ => writtenOrder)
         (device 48 true ["@048ACKOFF;FF"])) =
    Ok [ {| value := 0; status := "Cold cathode HV if OFF, or HC/PR/CP power if OFF" |};
         zeroReading; zeroReading; zeroReading; zeroReading; zeroReading ].
Proof.
  split; reflexivity.
Qed.

(** A response with seven fields that all decode. *)
Lemma GetPressures_more_than_six_fields_witness :
  Query "PRZ" (device 48 true ["@048ACKOFF OFF OFF OFF OFF OFF OFF;FF"]) =
    (Ok "OFF OFF OFF OFF OFF OFF OFF",
     exchanged (device 48 true ["@048ACKOFF OFF OFF OFF OFF OFF OFF;FF"])
       "@048PRZ?;FF" []) /\
  (6 < List.length (strings.Split "OFF OFF OFF OFF OFF OFF OFF" " "))%nat /\
  fst (@GetPressures tableFloatText (fun _ => writtenOrder)
         (device 48 true ["@048ACKOFF OFF OFF OFF OFF OFF OFF;FF"])) = Panic 6 6.
Proof.
  assert (Hseven : (6 < List.length (strings.Split "OFF OFF OFF OFF OFF OFF OFF" " "))%nat)
    by (simpl; lia).
  split; [reflexivity | split; [exact Hseven|]].
  destruct (@GetPressures_more_than_six_fields tableFloatText (fun _ => writtenOrder)
              (device 48 true ["@048ACKOFF OFF OFF OFF OFF OFF OFF;FF"])
              _ _ eq_refl Hseven) as (Hrun & _ & _).
  rewrite Hrun. reflexivity.
Defined.

(** C10 (as stated, refuted).  The response "OFF OFF OFF OFF OFF OFF " ends
    in a space and splits into 7 fields, the last of them empty.  The empty
    field fails to decode before anything is stored at index 6, so the call
    returns the parse error and does not panic. *)
Lemma GetPressures_seven_fields_counterexample :
  List.length (strings.Split "OFF OFF OFF OFF OFF OFF " " ") = 7%nat /\
  fst (@GetPressures tableFloatText (fun _ => writtenOrder)
         (device 48 true ["@048ACKOFF OFF OFF OFF OFF OFF ;FF"])) =
    Err (ErrNum (syntaxError "")).
Proof.
  split; reflexivity.
Qed.

(** ** The hysteresis set point *)

Section Hysteresis.

Context {goFloatText : GoFloatText}.




Lemma valid_channel (channel : Z) :
  In channel [1; 3; 5]%Z -> negb (slices_Contains [1; 3; 5]%Z channel) = false.
Proof.
  simpl. intros [<- | [<- | [<- | []]]]; reflexivity.
Qed.


End Hysteresis.


(** * Further properties of the package *)

(** ** The address in a frame *)

Lemma allBytes_append (p : ascii -> bool) (a b : string) :
  allBytes p (a ++ b) = allBytes p a && allBytes p b.
Proof.
  induction a as [|c a IH]; simpl; [reflexivity | now rewrite IH, andb_assoc].
Qed.

Lemma string_of_uint_digits (u : Decimal.uint) :
  allBytes regexp.isDigit (NilEmpty.string_of_uint u) = true.
Proof.
  induction u; simpl; try reflexivity; assumption.
Qed.

Lemma d_digits (z : Z) :
  (0 <= z)%Z -> fmt.d z <> "" /\ allBytes regexp.isDigit (fmt.d z) = true.
Proof.
  intros Hz. unfold fmt.d. destruct z as [|p|p]; [split; [discriminate | reflexivity]| |lia].
  simpl. pose proof (string_of_uint_digits (Pos.to_uint p)) as Hd.
  destruct (Pos.to_uint p); simpl in *; (split; [discriminate | assumption]).
Qed.

Lemma zeros_digits (n : nat) : allBytes regexp.isDigit (fmt.zeros n) = true.
Proof.
  induction n as [|n IH]; [reflexivity | exact IH].
Qed.

(** The address of a frame is a non-empty run of digits as soon as the
    address is not negative. *)
Lemma d03_digits (z : Z) :
  (0 <= z)%Z -> fmt.d03 z <> "" /\ allBytes regexp.isDigit (fmt.d03 z) = true.
Proof.
  intros Hz. unfold fmt.d03.
  destruct (z <? 0)%Z eqn:Hneg; [lia|].
  rewrite Z.abs_eq by assumption.
  destruct (d_digits z Hz) as [Hne Hd]. split.
  - destruct (fmt.zeros _); [exact Hne | discriminate].
  - now rewrite allBytes_append, zeros_digits, Hd.
Qed.

Lemma d03_negative (z : Z) :
  (z < 0)%Z -> exists rest, fmt.d03 z = String "-" rest.
Proof.
  intros Hz. unfold fmt.d03.
  destruct (z <? 0)%Z eqn:Hneg; [|lia]. now eexists.
Qed.

(** Up to 999 the address takes exactly three digits, and can be read back
    from them. *)
Lemma d03_small (z : Z) :
  (0 <= z <= 999)%Z ->
  String.length (fmt.d03 z) = 3%nat /\ readDecimal (fmt.d03 z) = Some z.
Proof.
  intros Hz.
  assert (Hall : forallb (fun n =>
                   (String.length (fmt.d03 (Z.of_nat n)) =? 3)%nat &&
                   match readDecimal (fmt.d03 (Z.of_nat n)) with
                   | Some v => (v =? Z.of_nat n)%Z
                   | None => false
                   end) (seq 0 1000) = true) by (vm_compute; reflexivity).
  rewrite forallb_forall in Hall.
  specialize (Hall (Z.to_nat z)). rewrite Z2Nat.id in Hall by lia.
  destruct (andb_prop _ _ (Hall ltac:(apply in_seq; lia))) as [Hlen Hread].
  split; [now apply Nat.eqb_eq|].
  destruct (readDecimal (fmt.d03 z)) as [v|]; [|discriminate].
  apply Z.eqb_eq in Hread. now subst.
Qed.

(** ** Decoding a frame *)

Lemma matchHere_not_at (c : ascii) (s : string) :
  notAt c = true -> regexp.matchHere (String c s) = None.
Proof.
  unfold notAt.
  destruct c as [[] [] [] [] [] [] [] []]; try reflexivity; discriminate.
Qed.

Lemma lazyGroup_exact (value after : string) :
  allBytes notNewline value = true ->
  strings.Contains value ";FF" = false ->
  regexp.lazyGroup (value ++ ";FF" ++ after) = Some value.
Proof.
  induction value as [|c value IH]; intros Hline Hterm; [reflexivity|].
  simpl in Hline. apply andb_true_iff in Hline as [Hc Hline].
  cbn [strings.Contains] in Hterm. apply orb_false_iff in Hterm as [Hhere Hterm].
  change (String c value ++ ";FF" ++ after)
    with (String c (value ++ ";FF" ++ after)).
  cbn [regexp.lazyGroup].
  destruct (strings.HasPrefix (String c (value ++ ";FF" ++ after)) ";FF") eqn:Hp.
  - exfalso. apply HasPrefix_iff in Hp as [r Hr].
    simpl in Hr. injection Hr as -> Hr.
    assert (Hv : strings.HasPrefix (String ";" value) ";FF" = true).
    { destruct value as [|x [|y value]]; simpl in Hr; try discriminate.
      injection Hr as -> -> _. reflexivity. }
    rewrite Hv in Hhere. discriminate.
  - unfold notNewline in Hc. apply negb_true_iff in Hc.
    now rewrite Hc, (IH Hline Hterm).
Qed.

Lemma lazyGroup_no_terminator (s parameter : string) :
  regexp.lazyGroup s = Some parameter ->
  strings.Contains parameter ";FF" = false.
Proof.
  revert parameter; induction s as [|c s IH]; intros parameter H.
  - simpl in H. discriminate.
  - cbn [regexp.lazyGroup] in H.
    destruct (strings.HasPrefix (String c s) ";FF") eqn:Hp.
    + now injection H as <-.
    + destruct (Ascii.eqb c regexp.newline); [discriminate|].
      destruct (regexp.lazyGroup s) as [p|] eqn:Hg; [|discriminate].
      injection H as <-.
      cbn [strings.Contains]. rewrite (IH p eq_refl), orb_false_r.
      destruct (strings.HasPrefix (String c p) ";FF") eqn:Hcp; [|reflexivity].
      apply HasPrefix_iff in Hcp as [r Hr].
      apply lazyGroup_spec in Hg as (_ & after & ->).
      assert (Hs : strings.HasPrefix (String c (p ++ ";FF" ++ after)) ";FF" = true).
      { apply HasPrefix_iff. exists (r ++ ";FF" ++ after).
        change (String c (p ++ ";FF" ++ after)) with (String c p ++ ";FF" ++ after).
        rewrite Hr. now rewrite append_assoc. }
      rewrite Hs in Hp. discriminate.
Qed.

Lemma matchHere_exact (address ack value after : string) :
  address <> "" -> allBytes regexp.isDigit address = true ->
  ack = "ACK" \/ ack = "NAK" ->
  allBytes notNewline value = true ->
  strings.Contains value ";FF" = false ->
  regexp.matchHere (frameText address ack value ++ after) =
  Some [frameText address ack value; address; value].
Proof.
  intros Hne Hdigits Hack Hline Hterm.
  unfold frameText. simpl.
  replace ((address ++ ack ++ value ++ ";FF") ++ after)
    with (address ++ ack ++ value ++ ";FF" ++ after)
    by now rewrite !append_assoc.
  rewrite digitRun_unique; [|assumption|].
  2:{ destruct Hack as [-> | ->]; reflexivity. }
  destruct address as [|a address]; [now elim Hne|].
  rewrite (tag_complete _ _ Hack), (lazyGroup_exact _ _ Hline Hterm).
  reflexivity.
Qed.

(** The search skips text without [@] and decodes the first frame. *)
Lemma FindStringSubmatch_exact (before address ack value after : string) :
  allBytes notAt before = true ->
  address <> "" -> allBytes regexp.isDigit address = true ->
  ack = "ACK" \/ ack = "NAK" ->
  allBytes notNewline value = true ->
  strings.Contains value ";FF" = false ->
  regexp.FindStringSubmatch (before ++ frameText address ack value ++ after) =
  [frameText address ack value; address; value].
Proof.
  intros Hbefore Hne Hdigits Hack Hline Hterm.
  induction before as [|c before IH].
  - change ("" ++ frameText address ack value ++ after)
      with (frameText address ack value ++ after).
    now rewrite FindStringSubmatch_unfold, matchHere_exact.
  - simpl in Hbefore. apply andb_true_iff in Hbefore as [Hc Hbefore].
    change (String c before ++ frameText address ack value ++ after)
      with (String c (before ++ frameText address ack value ++ after)).
    rewrite FindStringSubmatch_unfold, (matchHere_not_at _ _ Hc).
    exact (IH Hbefore).
Qed.

Lemma FindStringSubmatch_lazy (s : string) :
  strings.Contains (nth 2 (regexp.FindStringSubmatch s) "") ";FF" = false.
Proof.
  induction s as [|c s IH]; [reflexivity|].
  rewrite FindStringSubmatch_unfold.
  destruct (regexp.matchHere (String c s)) as [matches|] eqn:Hm; [|exact IH].
  destruct (Ascii.eqb_spec c "@") as [-> | Hne].
  2:{ rewrite matchHere_not_at in Hm; [discriminate|].
      unfold notAt. now apply negb_true_iff, Ascii.eqb_neq. }
  unfold regexp.matchHere in Hm.
  destruct (regexp.digitRun s) as [address s2].
  destruct address as [|a address]; [discriminate|].
  destruct (regexp.tag s2) as [[ack s3]|]; [|discriminate].
  destruct (regexp.lazyGroup s3) as [parameter|] eqn:Hg; [|discriminate].
  injection Hm as <-. simpl. exact (lazyGroup_no_terminator _ _ Hg).
Qed.

(** The verdicts on a response whose first frame is known. *)
Lemma verdicts_exact (expected : Z) (command parameter : string)
    (before address ack value after : string) :
  allBytes notAt before = true ->
  address <> "" -> allBytes regexp.isDigit address = true ->
  ack = "ACK" \/ ack = "NAK" ->
  allBytes notNewline value = true ->
  strings.Contains value ";FF" = false ->
  queryVerdict expected command (before ++ frameText address ack value ++ after) =
    (if String.eqb address (fmt.d03 expected) then Ok value
     else Err (ErrUnexpectedAddress (fmt.d03 expected) address)) /\
  setVerdict expected command parameter (before ++ frameText address ack value ++ after) =
    (if String.eqb address (fmt.d03 expected)
     then if String.eqb value parameter then Ok tt
          else Err (ErrUnexpectedParameter parameter value)
     else Err (ErrUnexpectedAddress (fmt.d03 expected) address)).
Proof.
  intros Hbefore Hne Hdigits Hack Hline Hterm.
  unfold queryVerdict, setVerdict.
  rewrite (FindStringSubmatch_exact before address ack value after
             Hbefore Hne Hdigits Hack Hline Hterm).
  cbn [List.length Nat.ltb Nat.leb nth].
  destruct (String.eqb address (fmt.d03 expected)); cbn [negb]; [|split; reflexivity].
  destruct (String.eqb value parameter); split; reflexivity.
Qed.

(** X1.  On a connected device whose address is between 1 and 254, the
    frame that [Query] writes and the frame that [Set] writes carry the
    address as exactly three decimal digits, zero-padded, that read back as
    the address. *)
Theorem frames_carry_three_digit_address :
  forall (m : MKS937B) (command parameter : string),
    (1 <= Address m <= 254)%Z ->
    unicomm.connected (Communication m) = true ->
    exists digits,
      String.length digits = 3%nat /\
      allBytes regexp.isDigit digits = true /\
      readDecimal digits = Some (Address m) /\
      sent (snd (Query command m)) =
        (sent m ++ [("@" ++ digits ++ command ++ "?;FF")%string])%list /\
      sent (snd (Set_ command parameter m)) =
        (sent m ++ [("@" ++ digits ++ command ++ "!" ++ parameter ++ ";FF")%string])%list.
Proof.
  intros m command parameter Ha Hc.
  exists (fmt.d03 (Address m)).
  destruct (d03_small (Address m) ltac:(lia)) as [Hlen Hread].
  destruct (d03_digits (Address m) ltac:(lia)) as [_ Hdigits].
  rewrite (Query_connected _ _ Hc), (Set_connected _ _ _ Hc).
  repeat split; assumption.
Qed.

(** The frames of a device at address 48. *)
Lemma frames_carry_three_digit_address_witness :
  (1 <= Address (device 48 true []) <= 254)%Z /\
  exists digits,
    String.length digits = 3%nat /\
    allBytes regexp.isDigit digits = true /\
    readDecimal digits = Some 48%Z /\
    sent (snd (Query "BR" (device 48 true []))) = ["@" ++ digits ++ "BR" ++ "?;FF"] /\
    sent (snd (Set_ "BR" "9600" (device 48 true []))) =
      ["@" ++ digits ++ "BR" ++ "!" ++ "9600" ++ ";FF"].
Proof.
  assert (Ha : (1 <= Address (device 48 true []) <= 254)%Z) by (simpl; lia).
  split; [exact Ha|].
  exact (frames_carry_three_digit_address (device 48 true []) "BR" "9600" Ha eq_refl).
Defined.

(** X2.  Round trip of a query.  A connected device with a non-negative
    address reads a response in which, after text without [@], comes a
    frame with its own address, either tag and a value that holds no line
    feed and no [;FF]; whatever follows the frame, [Query] returns that
    value as it stands, having written one frame and read one answer. *)
Theorem Query_round_trip :
  forall (m : MKS937B) (command before ack value after : string)
         (rest : list (string + string)),
    unicomm.connected (Communication m) = true ->
    (0 <= Address m)%Z ->
    allBytes notAt before = true ->
    ack = "ACK" \/ ack = "NAK" ->
    allBytes notNewline value = true ->
    strings.Contains value ";FF" = false ->
    unicomm.incoming (Communication m) =
      inl (before ++ frameText (fmt.d03 (Address m)) ack value ++ after) :: rest ->
    Query command m =
      (Ok value, exchanged m (queryFrame (Address m) command) rest).
Proof.
  intros m command before ack value after rest Hc Ha Hbefore Hack Hline Hterm Hin.
  rewrite (Query_exchange _ _ _ _ Hc Hin). f_equal.
  destruct (d03_digits _ Ha) as [Hne Hdigits].
  destruct (verdicts_exact (Address m) command "" before _ ack value after
              Hbefore Hne Hdigits Hack Hline Hterm) as [-> _].
  now rewrite String.eqb_refl.
Qed.

(** A reading answered with the tag [NAK], after some noise on the line. *)
Lemma Query_round_trip_witness :
  unicomm.incoming (Communication (device 48 true ["~~@048NAK4.50E-03;FF@"])) =
    [inl ("~~" ++ frameText (fmt.d03 48) "NAK" "4.50E-03" ++ "@")] /\
  Query "PR1" (device 48 true ["~~@048NAK4.50E-03;FF@"]) =
    (Ok "4.50E-03",
     exchanged (device 48 true ["~~@048NAK4.50E-03;FF@"]) "@048PR1?;FF" []).
Proof.
  split; [reflexivity|].
  apply (Query_round_trip (device 48 true ["~~@048NAK4.50E-03;FF@"])
           "PR1" "~~" "NAK" "4.50E-03" "@" []); try reflexivity.
  - simpl. lia.
  - now right.
Defined.

(** X3.  Echo of a set command.  Under the same conditions on the response,
    [Set] succeeds when the value of the frame is the parameter sent and
    fails with [UnexpectedParameter] (the parameter sent, the value read)
    when it is not, for the tag [ACK] and for the tag [NAK] alike. *)
Theorem Set_echo :
  forall (m : MKS937B) (command parameter before ack value after : string)
         (rest : list (string + string)),
    unicomm.connected (Communication m) = true ->
    (0 <= Address m)%Z ->
    allBytes notAt before = true ->
    ack = "ACK" \/ ack = "NAK" ->
    allBytes notNewline value = true ->
    strings.Contains value ";FF" = false ->
    unicomm.incoming (Communication m) =
      inl (before ++ frameText (fmt.d03 (Address m)) ack value ++ after) :: rest ->
    Set_ command parameter m =
      (if String.eqb value parameter then Ok tt
       else Err (ErrUnexpectedParameter parameter value),
       exchanged m (setFrame (Address m) command parameter) rest).
Proof.
  intros m command parameter before ack value after rest
    Hc Ha Hbefore Hack Hline Hterm Hin.
  rewrite (Set_exchange _ _ _ _ _ Hc Hin). f_equal.
  destruct (d03_digits _ Ha) as [Hne Hdigits].
  destruct (verdicts_exact (Address m) command parameter before _ ack value after
              Hbefore Hne Hdigits Hack Hline Hterm) as [_ ->].
  now rewrite String.eqb_refl.
Qed.

(** The baud rate 9600 echoed under the tag [NAK] is taken for a success. *)
Lemma Set_echo_witness :
  unicomm.incoming (Communication (device 48 true ["@048NAK9600;FF"])) =
    [inl ("" ++ frameText (fmt.d03 48) "NAK" "9600" ++ "")] /\
  fst (Set_ "BR" "9600" (device 48 true ["@048NAK9600;FF"])) = Ok tt /\
  fst (Set_ "BR" "19200" (device 48 true ["@048NAK9600;FF"])) =
    Err (ErrUnexpectedParameter "19200" "9600").
Proof.
  split; [reflexivity|].
  split.
  - rewrite (Set_echo (device 48 true ["@048NAK9600;FF"])
               "BR" "9600" "" "NAK" "9600" "" []); try reflexivity.
    + simpl. lia.
    + now right.
  - rewrite (Set_echo (device 48 true ["@048NAK9600;FF"])
               "BR" "19200" "" "NAK" "9600" "" []); try reflexivity.
    + simpl. lia.
    + now right.
Defined.

Lemma accepted_frame_shape (expected : Z) (response : string) :
  (List.length (regexp.FindStringSubmatch response) <? 3)%nat = false ->
  nth 1 (regexp.FindStringSubmatch response) "" = fmt.d03 expected ->
  (0 <= expected)%Z /\
  allBytes notNewline (nth 2 (regexp.FindStringSubmatch response) "") = true /\
  strings.Contains (nth 2 (regexp.FindStringSubmatch response) "") ";FF" = false.
Proof.
  intros Hlen Haddr.
  pose proof (FindStringSubmatch_lazy response) as Hlazy.
  destruct (FindStringSubmatch_spec response)
    as [H | (before & a & k & p & after & (Hne & Hdigits & _ & Hline) & _ & H)].
  - rewrite H in Hlen. discriminate.
  - rewrite H in *. simpl in *. subst a. repeat split; try assumption.
    destruct (Z.lt_ge_cases expected 0) as [Hneg | Hpos]; [|assumption].
    destruct (d03_negative _ Hneg) as [r Hr]. rewrite Hr in Hdigits. discriminate.
Qed.

(** X4.  What a success tells.  [Query] returns a value, and [Set] returns
    without error, only on a connected device whose address is not negative;
    the value returned by [Query], and the parameter that [Set] reports as
    set, hold no line feed and no [;FF]. *)
Theorem success_shape :
  forall (m : MKS937B) (command parameter : string),
    (forall value,
       fst (Query command m) = Ok value ->
       unicomm.connected (Communication m) = true /\ (0 <= Address m)%Z /\
       allBytes notNewline value = true /\
       strings.Contains value ";FF" = false) /\
    (fst (Set_ command parameter m) = Ok tt ->
     unicomm.connected (Communication m) = true /\ (0 <= Address m)%Z /\
     allBytes notNewline parameter = true /\
     strings.Contains parameter ";FF" = false).
Proof.
  intros m command parameter.
  destruct (unicomm.connected (Communication m)) eqn:Hc.
  2:{ rewrite (Query_not_connected _ _ Hc), (Set_not_connected _ _ _ Hc).
      split; [intros value H | intros H]; discriminate. }
  rewrite (Query_connected _ _ Hc), (Set_connected _ _ _ Hc). cbn [fst].
  destruct (fst (nextAnswer m)) as [response | reason].
  2:{ split; [intros value H | intros H]; discriminate. }
  unfold queryVerdict, setVerdict. split.
  - intros value H. split; [reflexivity|].
    destruct (List.length (regexp.FindStringSubmatch response) <? 3)%nat eqn:Hlen;
      [discriminate|].
    destruct (String.eqb_spec (nth 1 (regexp.FindStringSubmatch response) "")
                (fmt.d03 (Address m))) as [Ha | Ha]; [|discriminate].
    cbn [negb] in H. injection H as <-.
    exact (accepted_frame_shape _ _ Hlen Ha).
  - intros H. split; [reflexivity|].
    destruct (List.length (regexp.FindStringSubmatch response) <? 3)%nat eqn:Hlen;
      [discriminate|].
    destruct (String.eqb_spec (nth 1 (regexp.FindStringSubmatch response) "")
                (fmt.d03 (Address m))) as [Ha | Ha]; [|discriminate].
    destruct (String.eqb_spec (nth 2 (regexp.FindStringSubmatch response) "")
                parameter) as [Hp | Hp]; [|discriminate].
    rewrite <- Hp. exact (accepted_frame_shape _ _ Hlen Ha).
Qed.

(** X5.  A frame of another device is refused.  When the device address and
    the address of the first frame of the response are two different
    numbers from 0 to 999, [Query] and [Set] fail with [UnexpectedAddress],
    which carries the two addresses as written in the frames. *)
Theorem other_address_refused :
  forall (m : MKS937B) (other : Z)
         (command parameter before ack value after : string)
         (rest : list (string + string)),
    unicomm.connected (Communication m) = true ->
    (0 <= Address m <= 999)%Z -> (0 <= other <= 999)%Z ->
    other <> Address m ->
    allBytes notAt before = true ->
    ack = "ACK" \/ ack = "NAK" ->
    allBytes notNewline value = true ->
    strings.Contains value ";FF" = false ->
    unicomm.incoming (Communication m) =
      inl (before ++ frameText (fmt.d03 other) ack value ++ after) :: rest ->
    fst (Query command m) =
      Err (ErrUnexpectedAddress (fmt.d03 (Address m)) (fmt.d03 other)) /\
    fst (Set_ command parameter m) =
      Err (ErrUnexpectedAddress (fmt.d03 (Address m)) (fmt.d03 other)).
Proof.
  intros m other command parameter before ack value after rest
    Hc Ha Ho Hdiff Hbefore Hack Hline Hterm Hin.
  rewrite (Query_exchange _ _ _ _ Hc Hin), (Set_exchange _ _ _ _ _ Hc Hin).
  cbn [fst].
  destruct (d03_digits other ltac:(lia)) as [Hne Hdigits].
  destruct (verdicts_exact (Address m) command parameter before _ ack value after
              Hbefore Hne Hdigits Hack Hline Hterm) as [-> ->].
  destruct (String.eqb_spec (fmt.d03 other) (fmt.d03 (Address m))) as [Heq | _];
    [|split; reflexivity].
  exfalso. apply Hdiff.
  destruct (d03_small other Ho) as [_ Hro].
  destruct (d03_small (Address m) Ha) as [_ Hra].
  rewrite Heq, Hra in Hro. now injection Hro.
Qed.

(** The device at address 48 reads the answer of the device at address 99. *)
Lemma other_address_refused_witness :
  unicomm.incoming (Communication (device 48 true ["@099ACK250;FF"])) =
    [inl ("" ++ frameText (fmt.d03 99) "ACK" "250" ++ "")] /\
  fst (Query "AD" (device 48 true ["@099ACK250;FF"])) =
    Err (ErrUnexpectedAddress "048" "099") /\
  fst (Set_ "AD" "250" (device 48 true ["@099ACK250;FF"])) =
    Err (ErrUnexpectedAddress "048" "099").
Proof.
  split; [reflexivity|].
  apply (other_address_refused (device 48 true ["@099ACK250;FF"]) 99
           "AD" "250" "" "ACK" "250" "" []); try reflexivity;
    try (simpl; lia); try discriminate.
  now left.
Defined.

(** X6.  One write and one read per call.  [Query] and [Set] never change
    the address or the connection state of the handle.  On a connected
    device each writes exactly one frame and takes exactly one answer off
    the line, whatever the outcome; on a device that is not connected each
    leaves the line as it was. *)
Theorem one_exchange_per_call :
  forall (m : MKS937B) (command parameter : string),
    (Address (snd (Query command m)) = Address m /\
     unicomm.connected (Communication (snd (Query command m))) =
       unicomm.connected (Communication m) /\
     sent (snd (Query command m)) =
       (if unicomm.connected (Communication m)
        then sent m ++ [queryFrame (Address m) command] else sent m)%list /\
     unicomm.incoming (Communication (snd (Query command m))) =
       (if unicomm.connected (Communication m)
        then tl (unicomm.incoming (Communication m))
        else unicomm.incoming (Communication m))) /\
    (Address (snd (Set_ command parameter m)) = Address m /\
     unicomm.connected (Communication (snd (Set_ command parameter m))) =
       unicomm.connected (Communication m) /\
     sent (snd (Set_ command parameter m)) =
       (if unicomm.connected (Communication m)
        then sent m ++ [setFrame (Address m) command parameter] else sent m)%list /\
     unicomm.incoming (Communication (snd (Set_ command parameter m))) =
       (if unicomm.connected (Communication m)
        then tl (unicomm.incoming (Communication m))
        else unicomm.incoming (Communication m))).
Proof.
  intros m command parameter.
  destruct (unicomm.connected (Communication m)) eqn:Hc.
  - rewrite (Query_connected _ _ Hc), (Set_connected _ _ _ Hc).
    unfold exchanged, nextAnswer, sent. cbn [snd Address Communication
      unicomm.connected unicomm.written unicomm.incoming].
    destruct (unicomm.incoming (Communication m)); repeat split; assumption.
  - rewrite (Query_not_connected _ _ Hc), (Set_not_connected _ _ _ Hc).
    cbn [snd]. rewrite Hc. repeat split.
Qed.

(** X7.  [SetAddress] fails with [InvalidAddress] exactly when the new
    address is outside 1 to 254, and then leaves the handle as it was.  A
    new address in range is sent as three digits in the command [AD], and
    the call succeeds when the device echoes them.  In no case does the
    call change the address of the handle: the frames that follow still
    carry the old one. *)
Theorem SetAddress_guard_and_echo :
  forall (address : Z) (m : MKS937B),
    (isInvalidAddress (fst (SetAddress address m)) <->
     (address < 1 \/ 254 < address)%Z) /\
    ((address < 1 \/ 254 < address)%Z ->
     SetAddress address m = (Err (ErrInvalidAddress address), m)) /\
    Address (snd (SetAddress address m)) = Address m /\
    ((1 <= address <= 254)%Z ->
     unicomm.connected (Communication m) = true ->
     String.length (fmt.d03 address) = 3%nat /\
     sent (snd (SetAddress address m)) =
       (sent m ++ [setFrame (Address m) "AD" (fmt.d03 address)])%list /\
     forall ack rest,
       (0 <= Address m)%Z -> ack = "ACK" \/ ack = "NAK" ->
       unicomm.incoming (Communication m) =
         inl (frameText (fmt.d03 (Address m)) ack (fmt.d03 address)) :: rest ->
       fst (SetAddress address m) = Ok tt).
Proof.
  intros address m. unfold SetAddress.
  destruct ((address <? 1)%Z || (254 <? address)%Z) eqn:Hg.
  - assert (Hout : (address < 1 \/ 254 < address)%Z)
      by (apply orb_true_iff in Hg as [Hg | Hg]; lia).
    split; [|split; [|split]].
    + split; intros _; [exact Hout | now exists address].
    + reflexivity.
    + reflexivity.
    + lia.
  - apply orb_false_iff in Hg as [Hg1 Hg2].
    split; [|split; [|split]].
    + split; [|lia]. intros (got & H).
      pose proof (Set_errors m "AD" (fmt.d03 address)) as He.
      rewrite H in He. destruct He.
    + lia.
    + destruct (unicomm.connected (Communication m)) eqn:Hc.
      * now rewrite (Set_connected _ _ _ Hc).
      * now rewrite (Set_not_connected _ _ _ Hc).
    + intros Hrange Hc.
      split; [exact (proj1 (d03_small address ltac:(lia)))|].
      split; [now rewrite (Set_connected _ _ _ Hc)|].
      intros ack rest Ha Hack Hin.
      rewrite (Set_exchange _ _ _ _ _ Hc Hin). cbn [fst].
      destruct (d03_digits _ Ha) as [Hne Hdigits].
      destruct (d03_digits address ltac:(lia)) as [_ Hdnew].
      assert (Hline : allBytes notNewline (fmt.d03 address) = true).
      { destruct (d03_small address ltac:(lia)) as [Hlen _].
        clear -Hdnew Hlen.
        induction (fmt.d03 address) as [|c s IH] in Hdnew |- *; [reflexivity|].
        simpl in *. apply andb_true_iff in Hdnew as [Hc Hs].
        rewrite (IH Hs), andb_true_r.
        destruct c as [[] [] [] [] [] [] [] []]; try reflexivity; discriminate. }
      assert (Hterm : strings.Contains (fmt.d03 address) ";FF" = false).
      { clear -Hdnew.
        induction (fmt.d03 address) as [|c s IH] in Hdnew |- *; [reflexivity|].
        simpl in Hdnew. apply andb_true_iff in Hdnew as [Hc Hs].
        cbn [strings.Contains]. rewrite (IH Hs), orb_false_r.
        destruct c as [[] [] [] [] [] [] [] []]; try reflexivity; discriminate. }
      destruct (verdicts_exact (Address m) "AD" (fmt.d03 address) "" _ ack
                  (fmt.d03 address) "" eq_refl Hne Hdigits Hack Hline Hterm)
        as [_ Hv].
      change ("" ++ frameText (fmt.d03 (Address m)) ack (fmt.d03 address) ++ "")
        with (frameText (fmt.d03 (Address m)) ack (fmt.d03 address) ++ "") in Hv.
      rewrite append_empty_r in Hv. rewrite Hv.
      now rewrite !String.eqb_refl.
Qed.

(** ** The reading decoder, whatever the order of the table *)

(** An order of the table that visits a given entry first. *)
Lemma order_with_first (token description : string) :
  In (token, description) stringResponse ->
  exists order, rangeOrder order /\
                exists others, order = (token, description) :: others.
Proof.
  intros Hin. destruct (in_split _ _ Hin) as (l1 & l2 & Hsplit).
  exists ((token, description) :: l1 ++ l2)%list. split; [|now eexists].
  unfold rangeOrder. rewrite Hsplit. apply Permutation_middle.
Qed.

Section DecoderOrders.

Context {goFloatText : GoFloatText}.

(** X8.  The decoder gives the same reading in every order of the table
    exactly for the bodies whose tokens all carry one description: a body
    that contains two tokens with different descriptions decodes to the one
    or to the other, depending on which is visited first. *)
Theorem parsePressure_order_independence :
  forall (reading : string),
    (forall order1 order2,
       rangeOrder order1 -> rangeOrder order2 ->
       parsePressure order1 reading = parsePressure order2 reading) <->
    (forall token1 description1 token2 description2,
       In (token1, description1) stringResponse ->
       In (token2, description2) stringResponse ->
       strings.Contains reading token1 = true ->
       strings.Contains reading token2 = true ->
       description1 = description2).
Proof.
  intros reading. split.
  - intros Hsame t1 d1 t2 d2 Hin1 Hin2 Hc1 Hc2.
    destruct (order_with_first t1 d1 Hin1) as (o1 & Hp1 & r1 & ->).
    destruct (order_with_first t2 d2 Hin2) as (o2 & Hp2 & r2 & ->).
    specialize (Hsame _ _ Hp1 Hp2). unfold parsePressure in Hsame.
    cbn [firstContained] in Hsame. rewrite Hc1, Hc2 in Hsame.
    now injection Hsame.
  - intros Hone order1 order2 Hp1 Hp2. unfold parsePressure.
    assert (Heq : firstContained order1 reading = firstContained order2 reading).
    { destruct (firstContained order1 reading) as [d|] eqn:Hf.
      - apply firstContained_Some in Hf as (token & Hin & Hc).
        apply (Permutation_in _ Hp1) in Hin.
        symmetry. apply (firstContained_unambiguous order2 reading token d Hp2 Hin Hc).
        intros key d' Hin' Hc'. exact (Hone key d' token d Hin' Hin Hc' Hc).
      - symmetry. apply firstContained_None. intros key d Hin.
        rewrite firstContained_None in Hf. apply (Hf key d).
        apply (Permutation_in _ (Permutation_sym Hp1)).
        now apply (Permutation_in _ Hp2). }
    now rewrite Heq.
Qed.

(** X9.  The two kinds of reading.  A reading the decoder returns is either
    numeric, with the status "OK", the value that [ParseFloat] gave and a
    body that contains no token of the table; or symbolic, with the value 0
    and for status the description of a token its body contains, which is
    never "OK". *)
Theorem parsePressure_reading_kinds :
  forall (order : list (string * string)) (reading : string) (p : PressureReading),
    rangeOrder order ->
    parsePressure order reading = Ok p ->
    (status p = "OK" /\
     ParseFloat reading = (value p, None) /\
     forall token description,
       In (token, description) stringResponse ->
       strings.Contains reading token = false) \/
    (status p <> "OK" /\ value p = 0%float /\
     exists token,
       In (token, status p) stringResponse /\
       strings.Contains reading token = true).
Proof.
  intros order reading p Hperm. unfold parsePressure.
  destruct (firstContained order reading) as [d|] eqn:Hf.
  - intros H. injection H as <-. right.
    apply firstContained_Some in Hf as (token & Hin & Hc).
    apply (Permutation_in _ Hperm) in Hin. cbn [status value].
    split; [|split; [reflexivity | now exists token]].
    clear -Hin. intros ->. each_token Hin.
  - destruct (ParseFloat reading) as [parsed [err|]] eqn:Hparse; [discriminate|].
    intros H. injection H as <-. left. cbn [status value].
    split; [reflexivity | split; [reflexivity|]].
    intros token description Hin. rewrite firstContained_None in Hf.
    apply (Hf token description).
    now apply (Permutation_in _ (Permutation_sym Hperm)).
Qed.

End DecoderOrders.

(** The body "MISCONN" gives a symbolic reading. *)
Lemma parsePressure_reading_kinds_witness :
  rangeOrder writtenOrder /\
  @parsePressure tableFloatText writtenOrder "MISCONN" =
    Ok {| value := 0;
          status := "Sensor improperly connected, or broken filament (PR, CP only)" |} /\
  exists token,
    In (token, "Sensor improperly connected, or broken filament (PR, CP only)")
       stringResponse /\
    strings.Contains "MISCONN" token = true.
Proof.
  assert (Hperm : rangeOrder writtenOrder) by apply Permutation_refl.
  split; [exact Hperm | split; [reflexivity|]].
  destruct (@parsePressure_reading_kinds tableFloatText writtenOrder "MISCONN" _
              Hperm eq_refl) as [(Hok & _) | (_ & _ & Htoken)].
  - discriminate Hok.
  - exact Htoken.
Defined.

(** ** The all-channel read and the spaces of the response *)

Lemma Split_length (s : string) (sep : ascii) :
  List.length (strings.Split s sep) = S (countByte sep s).
Proof.
  induction s as [|c s IH]; [reflexivity|].
  cbn [strings.Split countByte].
  destruct (Ascii.eqb c sep).
  - simpl. now rewrite IH.
  - destruct (strings.Split s sep); simpl in *; [discriminate | exact IH].
Qed.

Section Spaces.

Context {goFloatText : GoFloatText}.

Lemma decodeFields_no_panic (orders : nat -> list (string * string))
    (fields : list string) :
  forall idx, ~ isPanic (decodeFields orders idx fields).
Proof.
  induction fields as [|field fields IH]; intros idx (i & n & H); simpl in H.
  - discriminate.
  - pose proof (parsePressure_errors (orders idx) field) as Hp.
    destruct (parsePressure (orders idx) field); try discriminate; [|contradiction].
    destruct (decodeFields orders (S idx) fields) eqn:Hd; try discriminate.
    apply (IH (S idx)). rewrite Hd. now exists i, n.
Qed.

(** X10.  Whether [GetPressures] can return readings or can panic is decided
    by the number of spaces in the response to [PRZ].  With at most 5 spaces
    the call never panics: it returns either six readings or a parse error.
    With 6 spaces or more it never returns readings: it returns a parse
    error or panics, and a panic is always the index 6 out of the range of
    the slice of length 6. *)
Theorem GetPressures_by_spaces :
  forall (orders : nat -> list (string * string)) (m m' : MKS937B) (response : string),
    Query "PRZ" m = (Ok response, m') ->
    ((countByte " " response <= 5)%nat ->
     ~ isPanic (fst (GetPressures orders m)) /\
     forall readings,
       fst (GetPressures orders m) = Ok readings -> List.length readings = 6%nat) /\
    ((6 <= countByte " " response)%nat ->
     (forall readings, fst (GetPressures orders m) <> Ok readings) /\
     forall index length,
       fst (GetPressures orders m) = Panic index length ->
       index = 6%nat /\ length = 6%nat).
Proof.
  intros orders m m' response Hq.
  rewrite (GetPressures_after_query _ _ _ _ Hq). cbn [fst].
  pose proof (Split_length response " ") as Hlen.
  change (repeat zeroReading 6) with ([] ++ repeat zeroReading 6)%list.
  split; intros Hspaces.
  - rewrite (fillPressures_within orders _ 0 [] (repeat zeroReading 6) eq_refl)
      by (rewrite repeat_length; lia).
    pose proof (decodeFields_no_panic orders (strings.Split response " ") 0) as Hnp.
    destruct (decodeFields orders 0 (strings.Split response " ")) as [decoded | e | i n] eqn:Hd.
    + split; [intros (i & n & H); discriminate|].
      intros readings H. injection H as <-.
      apply decodeFields_length in Hd.
      repeat rewrite length_app. rewrite length_skipn. simpl List.length. lia.
    + split; [intros (i & n & H); discriminate | intros readings H; discriminate].
    + elim Hnp. now exists i, n.
  - rewrite (fillPressures_beyond orders _ 0 [] (repeat zeroReading 6) eq_refl)
      by (rewrite repeat_length; lia).
    pose proof (decodeFields_no_panic orders
                  (firstn (S (List.length (repeat zeroReading 6)))
                     (strings.Split response " ")) 0) as Hnp.
    destruct (decodeFields orders 0 _) as [decoded | e | i n].
    + split; [intros readings H; discriminate|].
      intros index length H. injection H as <- <-. split; reflexivity.
    + split; [intros readings H; discriminate | intros index length H; discriminate].
    + elim Hnp. now exists i, n.
Qed.

End Spaces.

(** Six symbolic fields, five spaces. *)
Lemma GetPressures_by_spaces_witness :
  Query "PRZ" (device 48 true ["@048ACKOFF OFF OFF OFF OFF OFF;FF"]) =
    (Ok "OFF OFF OFF OFF OFF OFF",
     exchanged (device 48 true ["@048ACKOFF OFF OFF OFF OFF OFF;FF"]) "@048PRZ?;FF" []) /\
  (countByte " " "OFF OFF OFF OFF OFF OFF" <= 5)%nat /\
  ~ isPanic (fst (@GetPressures tableFloatText (fun _ => writtenOrder)
                    (device 48 true ["@048ACKOFF OFF OFF OFF OFF OFF;FF"]))).
Proof.
  assert (Hfive : (countByte " " "OFF OFF OFF OFF OFF OFF" <= 5)%nat) by (simpl; lia).
  split; [reflexivity | split; [exact Hfive|]].
  destruct (@GetPressures_by_spaces tableFloatText (fun _ => writtenOrder)
              (device 48 true ["@048ACKOFF OFF OFF OFF OFF OFF;FF"]) _ _ eq_refl)
    as [Hfew _].
  exact (proj1 (Hfew Hfive)).
Defined.

(** ** The commands of control.go *)

Lemma invalid_channel (channel : Z) :
  ~ In channel [1; 3; 5]%Z -> negb (slices_Contains [1; 3; 5]%Z channel) = true.
Proof.
  intros Hn. unfold slices_Contains. simpl.
  destruct (Z.eqb_spec channel 1) as [-> | _]; [elim Hn; simpl; tauto|].
  destruct (Z.eqb_spec channel 3) as [-> | _]; [elim Hn; simpl; tauto|].
  destruct (Z.eqb_spec channel 5) as [-> | _]; [elim Hn; simpl; tauto|].
  reflexivity.
Qed.

Lemma Query_channel_free (m : MKS937B) (command : string) :
  ~ isInvalidChannelControl (fst (Query command m)).
Proof.
  intros (c & H). pose proof (Query_errors m command) as He.
  rewrite H in He. destruct He.
Qed.

Lemma Set_channel_free (m : MKS937B) (command parameter : string) :
  ~ isInvalidChannelControl (fst (Set_ command parameter m)).
Proof.
  intros (c & H). pose proof (Set_errors m command parameter) as He.
  rewrite H in He. destruct He.
Qed.

Section ControlGuards.

Context {goFloatText : GoFloatText} {goNumbers : GoNumbers}.

Lemma query_float_channel_free (m : MKS937B) (command : string) :
  ~ isInvalidChannelControl
      (fst ((response <- Query command ;; lift (parseFloatResult response)) m)).
Proof.
  intros (c & H). revert H. unfold bind, lift.
  pose proof (Query_channel_free m command) as Hq.
  destruct (Query command m) as [[response | e | i n] m']; cbn [fst] in *.
  - unfold parseFloatResult.
    destruct (ParseFloat response) as [parsed [err|]]; discriminate.
  - intros H. injection H as ->. apply Hq. now exists c.
  - discriminate.
Qed.

Lemma query_flag_channel_free (m : MKS937B) (command : string) (f : string -> bool) :
  ~ isInvalidChannelControl
      (fst ((response <- Query command ;; ret (f response)) m)).
Proof.
  intros (c & H). revert H. unfold bind, ret.
  pose proof (Query_channel_free m command) as Hq.
  destruct (Query command m) as [[response | e | i n] m']; cbn [fst] in *;
    try discriminate.
  intros H. injection H as ->. apply Hq. now exists c.
Qed.

Ltac past_guard Hin :=
  rewrite (valid_channel _ Hin);
  first [ apply Query_channel_free
        | apply Set_channel_free
        | apply query_float_channel_free
        | apply query_flag_channel_free
        | (case_if; [intros (c & H); discriminate | apply Set_channel_free])
        | (case_if; apply Set_channel_free) ].

(** X11.  The channel guard of the control commands.  On a channel other
    than 1, 3 and 5 every command of control.go fails with
    [InvalidChannelControl] and leaves the handle as it was: nothing is
    written to the line.  On the channels 1, 3 and 5 none of them fails
    with that error, whatever the device answers. *)
Theorem control_channel_guard :
  forall (channel : Z) (m : MKS937B) (flag : bool) (x : float) (n : Z),
    (~ In channel [1; 3; 5]%Z ->
     GetProtectionTarget channel m = (Err (ErrInvalidChannelControl channel), m) /\
     SetProtectionTarget channel x m = (Err (ErrInvalidChannelControl channel), m) /\
     GetTarget channel m = (Err (ErrInvalidChannelControl channel), m) /\
     SetTarget channel x m = (Err (ErrInvalidChannelControl channel), m) /\
     GetUpperControlStatus channel m = (Err (ErrInvalidChannelControl channel), m) /\
     SetUpperControlStatus channel flag m = (Err (ErrInvalidChannelControl channel), m) /\
     GetHysterisesTarget channel m = (Err (ErrInvalidChannelControl channel), m) /\
     SetHysterisesTarget channel x m = (Err (ErrInvalidChannelControl channel), m) /\
     GetControlChannelStatus channel m = (Err (ErrInvalidChannelControl channel), m) /\
     GetControlMode channel m = (Err (ErrInvalidChannelControl channel), m) /\
     GetEmissionCurrent channel m = (Err (ErrInvalidChannelControl channel), m) /\
     GetGasCorrection channel m = (Err (ErrInvalidChannelControl channel), m) /\
     SetGasCorrection channel x m = (Err (ErrInvalidChannelControl channel), m) /\
     GetPowerStatus channel m = (Err (ErrInvalidChannelControl channel), m) /\
     SetPowerStatus channel flag m = (Err (ErrInvalidChannelControl channel), m) /\
     GetGasSensitivy channel m = (Err (ErrInvalidChannelControl channel), m) /\
     SetGasSentivity channel x m = (Err (ErrInvalidChannelControl channel), m) /\
     GetDegasStatus channel m = (Err (ErrInvalidChannelControl channel), m) /\
     SetDegasStatus channel flag m = (Err (ErrInvalidChannelControl channel), m) /\
     SetDegasTime channel n m = (Err (ErrInvalidChannelControl channel), m)) /\
    (In channel [1; 3; 5]%Z ->
     ~ isInvalidChannelControl (fst (GetProtectionTarget channel m)) /\
     ~ isInvalidChannelControl (fst (SetProtectionTarget channel x m)) /\
     ~ isInvalidChannelControl (fst (GetTarget channel m)) /\
     ~ isInvalidChannelControl (fst (SetTarget channel x m)) /\
     ~ isInvalidChannelControl (fst (GetUpperControlStatus channel m)) /\
     ~ isInvalidChannelControl (fst (SetUpperControlStatus channel flag m)) /\
     ~ isInvalidChannelControl (fst (GetHysterisesTarget channel m)) /\
     ~ isInvalidChannelControl (fst (SetHysterisesTarget channel x m)) /\
     ~ isInvalidChannelControl (fst (GetControlChannelStatus channel m)) /\
     ~ isInvalidChannelControl (fst (GetControlMode channel m)) /\
     ~ isInvalidChannelControl (fst (GetEmissionCurrent channel m)) /\
     ~ isInvalidChannelControl (fst (GetGasCorrection channel m)) /\
     ~ isInvalidChannelControl (fst (SetGasCorrection channel x m)) /\
     ~ isInvalidChannelControl (fst (GetPowerStatus channel m)) /\
     ~ isInvalidChannelControl (fst (SetPowerStatus channel flag m)) /\
     ~ isInvalidChannelControl (fst (GetGasSensitivy channel m)) /\
     ~ isInvalidChannelControl (fst (SetGasSentivity channel x m)) /\
     ~ isInvalidChannelControl (fst (GetDegasStatus channel m)) /\
     ~ isInvalidChannelControl (fst (SetDegasStatus channel flag m)) /\
     ~ isInvalidChannelControl (fst (SetDegasTime channel n m))).
Proof.
  intros channel m flag x n. split.
  - intros Hout. apply invalid_channel in Hout.
    unfold GetProtectionTarget, SetProtectionTarget, GetTarget, SetTarget,
      GetUpperControlStatus, SetUpperControlStatus, GetHysterisesTarget,
      SetHysterisesTarget, GetControlChannelStatus, GetControlMode,
      GetEmissionCurrent, GetGasCorrection, SetGasCorrection, GetPowerStatus,
      SetPowerStatus, GetGasSensitivy, SetGasSentivity, GetDegasStatus,
      SetDegasStatus, SetDegasTime.
    cbv zeta. rewrite !Hout. repeat split.
  - intros Hin.
    repeat match goal with |- _ /\ _ => split end.
    all: try (unfold GetProtectionTarget, SetProtectionTarget, GetTarget, SetTarget,
      GetUpperControlStatus, SetUpperControlStatus, GetHysterisesTarget,
      GetControlChannelStatus, GetControlMode,
      GetEmissionCurrent, GetGasCorrection, SetGasCorrection, GetPowerStatus,
      SetPowerStatus, GetGasSensitivy, SetGasSentivity, GetDegasStatus,
      SetDegasStatus, SetDegasTime; cbv zeta; past_guard Hin).
    unfold SetHysterisesTarget. cbv zeta. rewrite (valid_channel _ Hin).
    intros (c & H). revert H. unfold bind at 1.
    assert (Hg : ~ isInvalidChannelControl (fst (GetTarget channel m))).
    { unfold GetTarget. cbv zeta. past_guard Hin. }
    destruct (GetTarget channel m) as [[CSP | e | i k] m']; cbn [fst] in *.
    + case_if; [discriminate|].
      intros H. apply (Set_channel_free m' ("CHP" ++ fmt.d channel) (Sprintf_2E x)).
      now exists c.
    + intros H. injection H as ->. apply Hg. now exists c.
    + discriminate.
Qed.

End ControlGuards.

Lemma Set_range_free (m : MKS937B) (command parameter : string) :
  ~ isInvalidRangeExp (fst (Set_ command parameter m)).
Proof.
  intros (lo & hi & got & H). pose proof (Set_errors m command parameter) as He.
  rewrite H in He. destruct He.
Qed.

(** No number is both below [5e-4] and above [1e-2]. *)
Lemma below_and_above_set_point (x : float) :
  ((x <? 5e-4) && (1e-2 <? x))%float = false.
Proof.
  rewrite !ltb_spec. unfold SFltb.
  let lo := eval vm_compute in (Prim2SF 5e-4) in
  change (Prim2SF 5e-4) with lo.
  let hi := eval vm_compute in (Prim2SF 1e-2) in
  change (Prim2SF 1e-2) with hi.
  destruct (Prim2SF x) as [s | s | | s mx ex]; try (destruct s; reflexivity);
    try reflexivity.
  destruct s; [reflexivity|].
  unfold SFcompare.
  destruct (Z.compare_spec ex (-63)) as [He | He | He];
    destruct (Z.compare_spec (-59) ex) as [He' | He' | He'];
    try reflexivity; try lia.
  all: rewrite ?andb_false_r; try reflexivity.
Qed.

(** A comparison with NaN is false. *)
Lemma ltb_nan (x : float) : (nan <? x)%float = false /\ (x <? nan)%float = false.
Proof.
  rewrite !ltb_spec. unfold SFltb.
  change (Prim2SF nan) with S754_nan.
  split; [reflexivity|]. now destruct (Prim2SF x).
Qed.

Section ControlRanges.

Context {goFloatText : GoFloatText} {goNumbers : GoNumbers}.

(** X12.  The range guard of [SetTarget] never fires: its condition asks
    for a target below 5e-4 and above 1e-2 at once.  On the channels 1, 3
    and 5 every target is passed on to the set command [CSP<channel>], and
    no call fails with [InvalidRangeExp]. *)
Theorem SetTarget_range_guard :
  forall (target : float) (m : MKS937B),
    Forall (fun channel =>
              SetTarget channel target m =
              Set_ ("CSP" ++ fmt.d channel) (Sprintf_2E target) m)
           [1; 3; 5]%Z /\
    (forall channel, ~ isInvalidRangeExp (fst (SetTarget channel target m))).
Proof.
  intros target m. split.
  - repeat constructor; unfold SetTarget; cbn [slices_Contains existsb];
      cbn -[PrimFloat.ltb Set_ fmt.d append];
      now rewrite below_and_above_set_point.
  - intros channel. unfold SetTarget. cbv zeta.
    destruct (negb (slices_Contains [1; 3; 5]%Z channel)).
    + intros (lo & hi & got & H). discriminate.
    + rewrite below_and_above_set_point. apply Set_range_free.
Qed.

(** X13.  The range guard of [SetDegasTime] never fires either: no integer
    is below 5 and above 240.  On the channels 1, 3 and 5 every time, zero
    and the negative ones included, is printed in decimal and passed on to
    the set command [DGT<channel>]; no call fails with [InvalidRangeExp]. *)
Theorem SetDegasTime_range_guard :
  forall (time : Z) (m : MKS937B),
    Forall (fun channel =>
              SetDegasTime channel time m =
              Set_ ("DGT" ++ fmt.d channel) (fmt.d time) m)
           [1; 3; 5]%Z /\
    (forall channel, ~ isInvalidRangeExp (fst (SetDegasTime channel time m))) /\
    sent (snd (SetDegasTime 1 (-5) (device 48 true []))) = ["@048DGT1!-5;FF"].
Proof.
  intros time m.
  assert (Hg : ((time <? 5)%Z && (240 <? time)%Z) = false).
  { destruct (time <? 5)%Z eqn:H1; [|reflexivity].
    destruct (240 <? time)%Z eqn:H2; [lia | reflexivity]. }
  split; [|split].
  - repeat constructor; unfold SetDegasTime; cbn [slices_Contains existsb];
      cbn -[Z.ltb Set_ fmt.d append]; now rewrite Hg.
  - intros channel. unfold SetDegasTime. cbv zeta.
    destruct (negb (slices_Contains [1; 3; 5]%Z channel)).
    + intros (lo & hi & got & H). discriminate.
    + rewrite Hg. apply Set_range_free.
  - reflexivity.
Qed.

(** X14.  The range checks of the gas factors.  On a channel among 1, 3 and
    5, [SetGasCorrection] fails with [InvalidRangeExp] exactly when the
    factor is below 0.1 or above 50, and [SetGasSentivity] exactly when the
    sensitivity is below 1.0 or above 50; both errors carry the bounds 0.1
    and 50 and the value, and a refused call leaves the handle as it was.
    NaN is below and above nothing: it passes both checks and is sent. *)
Theorem gas_factor_ranges :
  forall (channel : Z) (x : float) (m : MKS937B),
    In channel [1; 3; 5]%Z ->
    (isInvalidRangeExp (fst (SetGasCorrection channel x m)) <->
     ((x <? 0.1) || (50 <? x))%float = true) /\
    (((x <? 0.1) || (50 <? x))%float = true ->
     SetGasCorrection channel x m = (Err (ErrInvalidRangeExp 0.1 50 x), m)) /\
    (isInvalidRangeExp (fst (SetGasSentivity channel x m)) <->
     ((x <? 1) || (50 <? x))%float = true) /\
    (((x <? 1) || (50 <? x))%float = true ->
     SetGasSentivity channel x m = (Err (ErrInvalidRangeExp 0.1 50 x), m)) /\
    SetGasCorrection channel nan m = Set_ ("GC" ++ fmt.d channel) (Sprintf_1f nan) m /\
    SetGasSentivity channel nan m = Set_ ("SEN" ++ fmt.d channel) (Sprintf_1f nan) m.
Proof.
  intros channel x m Hin.
  unfold SetGasCorrection, SetGasSentivity. cbv zeta.
  rewrite (valid_channel _ Hin).
  destruct (ltb_nan 0.1) as [Hn1 _]. destruct (ltb_nan 50) as [_ Hn2].
  destruct (ltb_nan 1) as [Hn3 _].
  change 50.0%float with 50%float. change 1.0%float with 1%float.
  rewrite Hn1, Hn2, Hn3. cbn [orb].
  split; [|split; [|split; [|split; [|split]]]]; try reflexivity.
  - destruct ((x <? 0.1) || (50 <? x))%float; split; intros H; try reflexivity.
    + now exists 0.1%float, 50%float, x.
    + now apply Set_range_free in H.
    + discriminate.
  - now intros ->.
  - destruct ((x <? 1) || (50 <? x))%float; split; intros H; try reflexivity.
    + now exists 0.1%float, 50%float, x.
    + now apply Set_range_free in H.
    + discriminate.
  - now intros ->.
Qed.

End ControlRanges.

(** A gas correction factor of 0.05 and a sensitivity of 0.5 on channel 1. *)
Lemma gas_factor_ranges_witness :
  In 1%Z [1; 3; 5]%Z /\
  @SetGasCorrection tableNumbers 1 0.05 (device 48 true []) =
    (Err (ErrInvalidRangeExp 0.1 50 0.05), device 48 true []) /\
  @SetGasSentivity tableNumbers 1 0.5 (device 48 true []) =
    (Err (ErrInvalidRangeExp 0.1 50 0.5), device 48 true []).
Proof.
  assert (Hin : In 1%Z [1; 3; 5]%Z) by (now left).
  split; [exact Hin|]. split.
  - destruct (@gas_factor_ranges tableNumbers 1 0.05 (device 48 true []) Hin)
      as (_ & H & _).
    apply H. reflexivity.
  - destruct (@gas_factor_ranges tableNumbers 1 0.5 (device 48 true []) Hin)
      as (_ & _ & _ & H & _).
    apply H. reflexivity.
Defined.

(** ** Switching on and off, and reading the switch back *)

(** A set command whose echo is read, then a query that reads the same
    text. *)
Lemma set_then_query (m : MKS937B) (command text ack1 ack2 : string)
    (rest : list (string + string)) (f : string -> bool) :
  unicomm.connected (Communication m) = true ->
  (0 <= Address m)%Z ->
  ack1 = "ACK" \/ ack1 = "NAK" -> ack2 = "ACK" \/ ack2 = "NAK" ->
  allBytes notNewline text = true ->
  strings.Contains text ";FF" = false ->
  unicomm.incoming (Communication m) =
    inl (frameText (fmt.d03 (Address m)) ack1 text) ::
    inl (frameText (fmt.d03 (Address m)) ack2 text) :: rest ->
  (Set_ command text ;;; (response <- Query command ;; ret (f response))) m =
  (Ok (f text),
   exchanged
     (exchanged m (setFrame (Address m) command text)
        (inl (frameText (fmt.d03 (Address m)) ack2 text) :: rest))
     (queryFrame (Address m) command) rest).
Proof.
  intros Hc Ha Hack1 Hack2 Hline Hterm Hin.
  destruct (d03_digits _ Ha) as [Hne Hdigits].
  assert (Hv : forall ack, ack = "ACK" \/ ack = "NAK" ->
            queryVerdict (Address m) command (frameText (fmt.d03 (Address m)) ack text) =
              Ok text /\
            setVerdict (Address m) command text (frameText (fmt.d03 (Address m)) ack text) =
              Ok tt).
  { intros ack Hack.
    destruct (verdicts_exact (Address m) command text "" _ ack text ""
                eq_refl Hne Hdigits Hack Hline Hterm) as [Hq Hs].
    change ("" ++ frameText (fmt.d03 (Address m)) ack text ++ "")
      with (frameText (fmt.d03 (Address m)) ack text ++ "") in Hq, Hs.
    rewrite append_empty_r in Hq, Hs.
    rewrite String.eqb_refl in Hq. rewrite !String.eqb_refl in Hs. now split. }
  unfold bind at 1. rewrite (Set_exchange _ _ _ _ _ Hc Hin).
  rewrite (proj2 (Hv ack1 Hack1)).
  unfold bind, ret.
  rewrite (Query_exchange
             (exchanged m (setFrame (Address m) command text)
                (inl (frameText (fmt.d03 (Address m)) ack2 text) :: rest))
             command (inl (frameText (fmt.d03 (Address m)) ack2 text)) rest
             Hc eq_refl).
  cbn [Address exchanged]. now rewrite (proj1 (Hv ack2 Hack2)).
Qed.

Lemma onOff_shape (status : bool) :
  allBytes notNewline (onOff status) = true /\
  strings.Contains (onOff status) ";FF" = false /\
  String.eqb (onOff status) "ON" = status.
Proof.
  destruct status; repeat split.
Qed.

Section Switches.

Context {goFloatText : GoFloatText} {goNumbers : GoNumbers}.

(** X15.  Round trip of the three switches.  On a channel among 1, 3 and 5
    of a connected device with a non-negative address, setting the power,
    the upper control set point or the degas status sends "ON" or "OFF";
    when the device echoes it and then answers the query with the same
    text, the getter returns the status that was set.  Two frames are
    written, the set command and the query. *)
Theorem switch_round_trip :
  forall (channel : Z) (status : bool) (m : MKS937B) (ack1 ack2 : string)
         (rest : list (string + string)),
    In channel [1; 3; 5]%Z ->
    unicomm.connected (Communication m) = true ->
    (0 <= Address m)%Z ->
    ack1 = "ACK" \/ ack1 = "NAK" -> ack2 = "ACK" \/ ack2 = "NAK" ->
    unicomm.incoming (Communication m) =
      inl (frameText (fmt.d03 (Address m)) ack1 (onOff status)) ::
      inl (frameText (fmt.d03 (Address m)) ack2 (onOff status)) :: rest ->
    (fst ((SetPowerStatus channel status ;;; GetPowerStatus channel) m) = Ok status /\
     sent (snd ((SetPowerStatus channel status ;;; GetPowerStatus channel) m)) =
       (sent m ++ [setFrame (Address m) ("CP" ++ fmt.d channel) (onOff status);
                   queryFrame (Address m) ("CP" ++ fmt.d channel)])%list) /\
    (fst ((SetUpperControlStatus channel status ;;; GetUpperControlStatus channel) m) =
       Ok status /\
     sent (snd ((SetUpperControlStatus channel status ;;;
                 GetUpperControlStatus channel) m)) =
       (sent m ++ [setFrame (Address m) ("XCS" ++ fmt.d channel) (onOff status);
                   queryFrame (Address m) ("XCS" ++ fmt.d channel)])%list) /\
    (fst ((SetDegasStatus channel status ;;; GetDegasStatus channel) m) = Ok status /\
     sent (snd ((SetDegasStatus channel status ;;; GetDegasStatus channel) m)) =
       (sent m ++ [setFrame (Address m) ("DG" ++ fmt.d channel) (onOff status);
                   queryFrame (Address m) ("DG" ++ fmt.d channel)])%list).
Proof.
  intros channel status m ack1 ack2 rest Hin Hc Ha Hack1 Hack2 Hincoming.
  destruct (onOff_shape status) as (Hline & Hterm & Hread).
  assert (Hset : forall command,
            (if status then Set_ command "ON" else Set_ command "OFF") =
            Set_ command (onOff status)) by (intros; now destruct status).
  unfold SetPowerStatus, GetPowerStatus, SetUpperControlStatus,
    GetUpperControlStatus, SetDegasStatus, GetDegasStatus.
  cbv zeta. rewrite (valid_channel _ Hin), !Hset.
  rewrite !(set_then_query m _ (onOff status) ack1 ack2 rest
              (fun response => String.eqb response "ON")
              Hc Ha Hack1 Hack2 Hline Hterm Hincoming).
  rewrite Hread. unfold exchanged, sent. cbn [fst snd Communication unicomm.written].
  rewrite <- !app_assoc. repeat split.
Qed.

End Switches.

(** The power of channel 3 switched off and read back. *)
Lemma switch_round_trip_witness :
  In 3%Z [1; 3; 5]%Z /\
  unicomm.incoming (Communication (device 48 true ["@048ACKOFF;FF"; "@048ACKOFF;FF"])) =
    [inl (frameText (fmt.d03 48) "ACK" (onOff false));
     inl (frameText (fmt.d03 48) "ACK" (onOff false))] /\
  fst ((SetPowerStatus 3 false ;;; GetPowerStatus 3)
         (device 48 true ["@048ACKOFF;FF"; "@048ACKOFF;FF"])) = Ok false /\
  sent (snd ((SetPowerStatus 3 false ;;; GetPowerStatus 3)
               (device 48 true ["@048ACKOFF;FF"; "@048ACKOFF;FF"]))) =
    ["@048CP3!OFF;FF"; "@048CP3?;FF"].
Proof.
  assert (Hin : In 3%Z [1; 3; 5]%Z) by (right; now left).
  split; [exact Hin | split; [reflexivity|]].
  assert (Ha : (0 <= Address (device 48 true ["@048ACKOFF;FF"; "@048ACKOFF;FF"]))%Z)
    by (simpl; lia).
  destruct (switch_round_trip 3 false
              (device 48 true ["@048ACKOFF;FF"; "@048ACKOFF;FF"]) "ACK" "ACK" []
              Hin eq_refl Ha (or_introl eq_refl) (or_introl eq_refl) eq_refl)
    as [Hpower _].
  exact Hpower.
Defined.

(** ** The single-channel reads, end to end *)

Section SingleChannel.

Context {goFloatText : GoFloatText}.

(** X16.  On a connected device with a non-negative address that answers
    with a frame of its own, [GetPressure] on channel 1 writes the query
    [PR1], and [GetPressureCombination] on channel 1 or 2 the query
    [PC<channel>]; each returns what the decoder makes of the value of the
    frame, a reading or a parse error, and takes one answer off the line. *)
Theorem single_channel_read :
  forall (order : list (string * string)) (m : MKS937B) (ack value : string)
         (rest : list (string + string)),
    unicomm.connected (Communication m) = true ->
    (0 <= Address m)%Z ->
    ack = "ACK" \/ ack = "NAK" ->
    allBytes notNewline value = true ->
    strings.Contains value ";FF" = false ->
    unicomm.incoming (Communication m) =
      inl (frameText (fmt.d03 (Address m)) ack value) :: rest ->
    GetPressure order 1 m =
      (parsePressure order value, exchanged m (queryFrame (Address m) "PR1") rest) /\
    Forall (fun channel =>
              GetPressureCombination order channel m =
              (parsePressure order value,
               exchanged m (queryFrame (Address m) ("PC" ++ fmt.d channel)) rest))
           [1; 2]%Z.
Proof.
  intros order m ack value rest Hc Ha Hack Hline Hterm Hin.
  destruct (d03_digits _ Ha) as [Hne Hdigits].
  assert (Hq : forall command,
            Query command m = (Ok value, exchanged m (queryFrame (Address m) command) rest)).
  { intros command. rewrite (Query_exchange _ _ _ _ Hc Hin). f_equal.
    destruct (verdicts_exact (Address m) command "" "" _ ack value ""
                eq_refl Hne Hdigits Hack Hline Hterm) as [Hv _].
    change ("" ++ frameText (fmt.d03 (Address m)) ack value ++ "")
      with (frameText (fmt.d03 (Address m)) ack value ++ "") in Hv.
    rewrite append_empty_r in Hv. rewrite Hv. now rewrite String.eqb_refl. }
  split; [|repeat constructor];
    unfold GetPressure, GetPressureCombination; cbn [Z.ltb Z.gtb Z.compare orb Pos.compare
      Pos.compare_cont]; unfold bind, lift; now rewrite Hq.
Qed.

End SingleChannel.

(** Channel 1 without a gauge. *)
Lemma single_channel_read_witness :
  unicomm.incoming (Communication (device 48 true ["@048ACKNOGAUGE;FF"])) =
    [inl (frameText (fmt.d03 48) "ACK" "NOGAUGE")] /\
  fst (@GetPressure tableFloatText writtenOrder 1 (device 48 true ["@048ACKNOGAUGE;FF"])) =
    Ok {| value := 0; status := "Controller unable to determine sensor connection" |} /\
  sent (snd (@GetPressure tableFloatText writtenOrder 1
               (device 48 true ["@048ACKNOGAUGE;FF"]))) = ["@048PR1?;FF"].
Proof.
  split; [reflexivity|].
  assert (Ha : (0 <= Address (device 48 true ["@048ACKNOGAUGE;FF"]))%Z) by (simpl; lia).
  destruct (@single_channel_read tableFloatText writtenOrder
              (device 48 true ["@048ACKNOGAUGE;FF"]) "ACK" "NOGAUGE" []
              eq_refl Ha (or_introl eq_refl) eq_refl eq_refl eq_refl) as [Hone _].
  rewrite Hone. split; reflexivity.
Defined.
